(** * FastAPI Shopify search proxy: a shallow embedding of [app/main.py]

    The development follows the source file top to bottom: Python strings
    and the string methods the program calls, the JSON values returned by
    [resp.json()], the Python operations applied to them (with the
    exceptions they raise), the pydantic models, [normalize_domain],
    [ensure_config_ok], [search_shopify_products] and the [/search]
    handler.  Theorems come after the definitions. *)

From Stdlib Require Import List ZArith NArith Bool Ascii String Lia.
Import ListNotations.

Set Implicit Arguments.
Set Warnings "-register-all".

(* ================================================================= *)
(** ** Python strings *)

(** A Python [str] is a sequence of Unicode code points.  Literals of the
    source are ASCII and are written [u "..."]. *)
Definition pystr := list N.

Definition u (s : string) : pystr := map N_of_ascii (list_ascii_of_string s).

Fixpoint pystr_eqb (a b : pystr) : bool :=
  match a, b with
  | [], [] => true
  | x :: a', y :: b' => (x =? y)%N && pystr_eqb a' b'
  | _, _ => false
  end.

(** [str.isspace] on one code point, the test used by [str.strip()]. *)
Definition is_space (c : N) : bool :=
  (((9 <=? c) && (c <=? 13)) || ((28 <=? c) && (c <=? 32))
   || (c =? 133) || (c =? 160) || (c =? 5760)
   || ((8192 <=? c) && (c <=? 8202))
   || (c =? 8232) || (c =? 8233) || (c =? 8239) || (c =? 8287)
   || (c =? 12288))%N.

Fixpoint lstrip_by (p : N -> bool) (s : pystr) : pystr :=
  match s with
  | [] => []
  | c :: r => if p c then lstrip_by p r else s
  end.

Definition rstrip_by (p : N -> bool) (s : pystr) : pystr :=
  rev (lstrip_by p (rev s)).

Definition strip_by (p : N -> bool) (s : pystr) : pystr :=
  rstrip_by p (lstrip_by p s).

(** [s.strip()] *)
Definition strip (s : pystr) : pystr := strip_by is_space s.

(** [s.strip(chars)] *)
Definition strip_chars (chars s : pystr) : pystr :=
  strip_by (fun c => existsb (N.eqb c) chars) s.

(** [s.startswith(p)] *)
Fixpoint startswith (p s : pystr) : bool :=
  match p, s with
  | [], _ => true
  | _ :: _, [] => false
  | a :: p', b :: s' => (a =? b)%N && startswith p' s'
  end.

(** [p in s] for two strings: [p] occurs as a contiguous substring. *)
Fixpoint substring_in (p s : pystr) : bool :=
  startswith p s ||
  match s with
  | [] => false
  | _ :: s' => substring_in p s'
  end.

(** Truth value of a string and of an optional string ([None] and [""]
    are false). *)
Definition str_truthy (s : pystr) : bool :=
  match s with [] => false | _ :: _ => true end.

Definition opt_truthy (o : option pystr) : bool :=
  match o with None => false | Some s => str_truthy s end.

(* ================================================================= *)
(** ** Settings and the configuration resolver *)

(** [request_timeout_seconds] is only handed to the HTTP client; a
    timeout shows as the upstream raising. *)
Record Settings := {
  shopify_store_domain : pystr;
  shopify_storefront_token : pystr;
  shopify_api_version : pystr
}.

(** The class defaults of [Settings]. *)
Definition default_settings : Settings :=
  {| shopify_store_domain := u "example.myshopify.com";
     shopify_storefront_token := u "";
     shopify_api_version := u "2024-07" |}.

(** [normalize_domain], lines 28-35.  The two [if]s are sequential. *)
Definition normalize_domain (domain : option pystr) : pystr :=
  let d := strip (match domain with
                  | Some s => if str_truthy s then s else u ""
                  | None => u ""
                  end) in
  let d := if startswith (u "http://") d
           then skipn (List.length (u "http://")) d else d in
  let d := if startswith (u "https://") d
           then skipn (List.length (u "https://")) d else d in
  strip_chars (u "/") (strip d).

(** [normalize] as section 4.1 of the specification words it: the
    protocol prefixes are alternatives, the first match wins and only one
    strip is applied.  It is compared with [normalize_domain] below. *)
Definition normalize_first_match_only (domain : pystr) : pystr :=
  let d := strip domain in
  let d := if startswith (u "http://") d
           then skipn (List.length (u "http://")) d
           else if startswith (u "https://") d
           then skipn (List.length (u "https://")) d
           else d in
  strip_chars (u "/") d.

(** [ensure_config_ok], lines 37-46. *)
Inductive config_error :=
  | InvalidStoreDomain
  | MissingStorefrontToken.

Definition ensure_config_ok (settings : Settings) : config_error + pystr :=
  let d := normalize_domain (Some (shopify_store_domain settings)) in
  if negb (str_truthy d) || negb (substring_in (u ".") d)
  then inl InvalidStoreDomain
  else if negb (str_truthy (shopify_storefront_token settings))
  then inl MissingStorefrontToken
  else inr d.

(* ================================================================= *)
(** ** Python floats *)

(** The builtin [float] is not part of the repository: the carrier of
    Python floats and the conversions the program relies on are an
    interface.  [None] stands for the exception the builtin raises
    ([OverflowError] from an int, [ValueError] from a string). *)
Class PyFloat := {
  float : Type;
  float_of_int : Z -> option float;
  float_of_str : pystr -> option float;
  float_is_zero : float -> bool
}.

Section Model.

Context {PF : PyFloat}.

(* ================================================================= *)
(** ** JSON values, as [resp.json()] returns them *)

(** [None], [bool], [int], [float], [str], [list] and [dict].  A dict is
    an association list read with first match. *)
Inductive json :=
  | JNull
  | JBool (b : bool)
  | JInt (z : Z)
  | JFloat (f : float)
  | JStr (s : pystr)
  | JArr (items : list json)
  | JObj (fields : list (pystr * json)).

Fixpoint assoc (k : pystr) (kvs : list (pystr * json)) : option json :=
  match kvs with
  | [] => None
  | (k', v) :: rest => if pystr_eqb k k' then Some v else assoc k rest
  end.

(** Exceptions the program can raise. *)
Inductive exn :=
  | AttributeError
  | TypeError
  | KeyError (key : json)
  | IndexError
  | ValueError
  | OverflowError
  | ValidationError
  | RequestValidationError
  | JSONDecodeError
  | TransportError
  | RuntimeError (e : config_error)
  | HTTPException (status_code : Z) (detail : json).

Inductive result (A : Type) :=
  | Ok (a : A)
  | Raise (e : exn).

Arguments Raise {A} e.

Definition bind {A B} (m : result A) (k : A -> result B) : result B :=
  match m with
  | Ok a => k a
  | Raise e => Raise e
  end.

Notation "x <- m ;; k" := (bind m (fun x => k))
  (at level 61, m at next level, right associativity).

(** Truth value of a Python object. *)
Definition truthy (x : json) : bool :=
  match x with
  | JNull => false
  | JBool b => b
  | JInt z => negb (z =? 0)%Z
  | JFloat f => negb (float_is_zero f)
  | JStr s => str_truthy s
  | JArr [] => false
  | JArr (_ :: _) => true
  | JObj [] => false
  | JObj (_ :: _) => true
  end.

(** [a or b] *)
Definition py_or (a b : json) : json := if truthy a then a else b.

(** [x.get(k, default)]: only a dict has the method. *)
Definition dict_get (kvs : list (pystr * json)) (k : pystr) (default : json)
  : json :=
  match assoc k kvs with
  | Some v => v
  | None => default
  end.

Definition py_get (x : json) (k : pystr) (default : json) : result json :=
  match x with
  | JObj kvs => Ok (dict_get kvs k default)
  | _ => Raise AttributeError
  end.

(** [x[k]] with a string key. *)
Definition py_getitem (x : json) (k : pystr) : result json :=
  match x with
  | JObj kvs => match assoc k kvs with
                | Some v => Ok v
                | None => Raise (KeyError (JStr k))
                end
  | _ => Raise TypeError
  end.

(** [x[0]].  The keys of a parsed object are strings, so a dict has no
    key [0]. *)
Definition py_getitem0 (x : json) : result json :=
  match x with
  | JArr (a :: _) => Ok a
  | JArr [] => Raise IndexError
  | JStr (c :: _) => Ok (JStr [c])
  | JStr [] => Raise IndexError
  | JObj _ => Raise (KeyError (JInt 0))
  | _ => Raise TypeError
  end.

(** [k in x] for a string [k]. *)
Definition py_contains (k : pystr) (x : json) : result bool :=
  match x with
  | JObj kvs => Ok (match assoc k kvs with Some _ => true | None => false end)
  | JArr l => Ok (existsb (fun y => match y with
                                    | JStr s => pystr_eqb k s
                                    | _ => false
                                    end) l)
  | JStr s => Ok (substring_in k s)
  | _ => Raise TypeError
  end.

(** [for edge in x]: the sequence the loop walks. *)
Definition py_iter (x : json) : result (list json) :=
  match x with
  | JArr l => Ok l
  | JObj kvs => Ok (map (fun kv => JStr (fst kv)) kvs)
  | JStr s => Ok (map (fun c => JStr [c]) s)
  | _ => Raise TypeError
  end.

(** [float(x)] *)
Definition py_float (x : json) : result float :=
  match x with
  | JFloat f => Ok f
  | JInt z => match float_of_int z with
              | Some f => Ok f
              | None => Raise OverflowError
              end
  | JBool b => match float_of_int (if b then 1 else 0) with
               | Some f => Ok f
               | None => Raise OverflowError
               end
  | JStr s => match float_of_str s with
              | Some f => Ok f
              | None => Raise ValueError
              end
  | _ => Raise TypeError
  end.

(* ================================================================= *)
(** ** Models (pydantic 2, as [pydantic_settings] requires) *)

(** Validation of a [str] field and of an [Optional[str]] field. *)
Definition validate_str (x : json) : result pystr :=
  match x with
  | JStr s => Ok s
  | _ => Raise ValidationError
  end.

Definition validate_opt_str (x : json) : result (option pystr) :=
  match x with
  | JNull => Ok None
  | JStr s => Ok (Some s)
  | _ => Raise ValidationError
  end.

Record Money := {
  amount : float;
  currencyCode : pystr
}.

Record ProductResult := {
  id : pystr;
  title : pystr;
  handle : pystr;
  url : option pystr;
  price : option Money;
  image : option pystr;
  imageAlt : option pystr
}.

Record SearchResponse := {
  store : pystr;
  query : pystr;
  count : Z;
  results : list ProductResult
}.

(* ================================================================= *)
(** ** Shopify Storefront API client *)

Definition GRAPHQL_QUERY : pystr := u "
query ProductSearch($q: String!, $num: Int!) {
  products(first: $num, query: $q, sortKey: RELEVANCE) {
    edges {
      node {
        id
        title
        handle
        onlineStoreUrl
        featuredImage { url altText }
        images(first: 1) { edges { node { url altText } } }
        variants(first: 1) {
          edges {
            node {
              price { amount currencyCode }
              priceV2 { amount currencyCode }
            }
          }
        }
      }
    }
  }
}
".

(** What [client.post] is given, and the part of the [httpx] response the
    program reads: [json_body] is the outcome of [resp.json()], [None]
    when the body does not parse. *)
Record Request := {
  req_url : pystr;
  req_headers : list (pystr * pystr);
  req_json : json
}.

Record Response := {
  status_code : Z;
  text : pystr;
  json_body : option json
}.

(** [resp.json()] *)
Definition resp_json (resp : Response) : result json :=
  match json_body resp with
  | Some j => Ok j
  | None => Raise JSONDecodeError
  end.

(** Lines 164-168 of the loop body: [variant_edges], [v] and
    [price_node]. *)
Definition variant_edges_of (node : json) : result json :=
  variants <- py_get node (u "variants") (JObj []) ;;
  py_get variants (u "edges") (JArr []).

Definition first_variant_of (variant_edges : json) : result json :=
  first <- py_getitem0 variant_edges ;;
  py_get first (u "node") (JObj []).

Definition price_node_of (node : json) : result json :=
  variant_edges <- variant_edges_of node ;;
  if truthy variant_edges then
    v <- first_variant_of variant_edges ;;
    p <- py_get v (u "price") JNull ;;
    if truthy p then Ok p else py_get v (u "priceV2") JNull
  else Ok JNull.

(** Lines 171-173 of the loop body: [featured], [img_edges] and
    [img_node]. *)
Definition featured_of (node : json) : result json :=
  f <- py_get node (u "featuredImage") JNull ;;
  Ok (py_or f (JObj [])).

Definition img_edges_of (node : json) : result json :=
  images <- py_get node (u "images") (JObj []) ;;
  py_get images (u "edges") (JArr []).

Definition img_node_of (node : json) : result json :=
  featured <- featured_of node ;;
  img_edges <- img_edges_of node ;;
  if truthy featured then Ok featured
  else if truthy img_edges then
    first <- py_getitem0 img_edges ;;
    py_getitem first (u "node")
  else Ok (JObj []).

(** [Money(amount=float(price_node["amount"]),
           currencyCode=price_node["currencyCode"]) if price_node else None] *)
Definition money_of (price_node : json) : result (option Money) :=
  if truthy price_node then
    a <- py_getitem price_node (u "amount") ;;
    a <- py_float a ;;
    c <- py_getitem price_node (u "currencyCode") ;;
    c <- validate_str c ;;
    Ok (Some {| amount := a; currencyCode := c |})
  else Ok None.

(** One turn of the loop, lines 161-186: the arguments of
    [ProductResult] are evaluated left to right, then validated. *)
Definition normalize_edge (edge : json) : result ProductResult :=
  node <- py_get edge (u "node") (JObj []) ;;
  price_node <- price_node_of node ;;
  img_node <- img_node_of node ;;
  id_ <- py_get node (u "id") (JStr (u "")) ;;
  title_ <- py_get node (u "title") (JStr (u "")) ;;
  handle_ <- py_get node (u "handle") (JStr (u "")) ;;
  url_ <- py_get node (u "onlineStoreUrl") JNull ;;
  price_ <- money_of price_node ;;
  image_ <- py_get img_node (u "url") JNull ;;
  imageAlt_ <- py_get img_node (u "altText") JNull ;;
  id_ <- validate_str id_ ;;
  title_ <- validate_str title_ ;;
  handle_ <- validate_str handle_ ;;
  url_ <- validate_opt_str url_ ;;
  image_ <- validate_opt_str image_ ;;
  imageAlt_ <- validate_opt_str imageAlt_ ;;
  Ok {| id := id_; title := title_; handle := handle_; url := url_;
        price := price_; image := image_; imageAlt := imageAlt_ |}.

(** The loop [for edge in edges: ... results.append(...)]. *)
Fixpoint normalize_loop (edges : list json) (results : list ProductResult)
  : result (list ProductResult) :=
  match edges with
  | [] => Ok results
  | edge :: rest =>
      r <- normalize_edge edge ;;
      normalize_loop rest (results ++ [r])
  end.

(** [data.get("data", {}).get("products", {}).get("edges", [])] *)
Definition edges_of (data : json) : result json :=
  d <- py_get data (u "data") (JObj []) ;;
  products <- py_get d (u "products") (JObj []) ;;
  py_get products (u "edges") (JArr []).

Definition obj2 (k1 : string) (v1 : json) (k2 : string) (v2 : json) : json :=
  JObj [(u k1, v1); (u k2, v2)].

(** Lines 146-188: what is done with the response of the POST. *)
Definition read_response (resp : Response) : result (list ProductResult) :=
  if negb (status_code resp =? 200)%Z then
    let err := match json_body resp with
               | Some j => j
               | None => JStr (text resp)
               end in
    Raise (HTTPException 502
             (obj2 "message" (JStr (u "Shopify request failed")) "error" err))
  else
    data <- resp_json resp ;;
    has_errors <- py_contains (u "errors") data ;;
    if has_errors then
      errors <- py_getitem data (u "errors") ;;
      Raise (HTTPException 502
               (obj2 "message" (JStr (u "Shopify GraphQL error")) "error" errors))
    else
      edges <- edges_of data ;;
      edges <- py_iter edges ;;
      normalize_loop edges [].

(** [max(1, min(limit, 50))] *)
Definition num_of (limit : Z) : Z := Z.max 1 (Z.min limit 50).

Definition build_request (settings : Settings) (domain token query : pystr)
  (limit : Z) : Request :=
  {| req_url := u "https://" ++ domain ++ u "/api/"
                  ++ shopify_api_version settings ++ u "/graphql.json";
     req_headers :=
       [(u "Content-Type", u "application/json");
        (u "X-Shopify-Storefront-Access-Token", token)];
     req_json :=
       obj2 "query" (JStr GRAPHQL_QUERY)
            "variables" (obj2 "q" (JStr query) "num" (JInt (num_of limit))) |}.

(** [search_shopify_products], lines 123-188.  [post] is the upstream:
    it answers a request with a response or raises (a timeout, a
    transport failure).  The function returns the requests it posted,
    in order, and its outcome. *)
Definition search_shopify_products (settings : Settings)
  (post : Request -> result Response)
  (query : pystr) (limit : Z) (store_domain : option pystr)
  : list Request * result (list ProductResult) :=
  let domain :=
    if opt_truthy store_domain then Ok (normalize_domain store_domain)
    else match ensure_config_ok settings with
         | inr d => Ok d
         | inl e => Raise (RuntimeError e)
         end in
  match domain with
  | Raise e => ([], Raise e)
  | Ok domain =>
      let token := strip (shopify_storefront_token settings) in
      if negb (str_truthy token) then
        ([], Raise (HTTPException 500
               (JStr (u "Missing SHOPIFY_STOREFRONT_TOKEN. Set it in your .env."))))
      else
        let req := build_request settings domain token query limit in
        ([req], resp <- post req ;; read_response resp)
  end.

(* ================================================================= *)
(** ** Routes *)

(** The body of the [/search] handler, lines 220-226. *)
Definition search_body (settings : Settings)
  (post : Request -> result Response)
  (q : pystr) (limit : Z) (store_ : option pystr)
  : list Request * result SearchResponse :=
  let (log, r) := search_shopify_products settings post q limit store_ in
  (log,
   results_ <- r ;;
   Ok {| store := if opt_truthy store_ then normalize_domain store_
                  else normalize_domain (Some (shopify_store_domain settings));
         query := q;
         count := Z.of_nat (List.length results_);
         results := results_ |}).

(** The [/search] route with its parameter declarations, lines 210-215:
    [q = Query(...)] is required, [limit = Query(5, ge=1, le=50)],
    [store = Query(None)].  An argument is [None] when the parameter is
    not in the query string; [limit] is given as the integer it parses
    to. *)
Definition search (settings : Settings)
  (post : Request -> result Response)
  (q : option pystr) (limit : option Z) (store_ : option pystr)
  : list Request * result SearchResponse :=
  match q with
  | None => ([], Raise RequestValidationError)
  | Some q =>
      match limit with
      | None => search_body settings post q 5 store_
      | Some l =>
          if ((1 <=? l) && (l <=? 50))%Z
          then search_body settings post q l store_
          else ([], Raise RequestValidationError)
      end
  end.

(* ================================================================= *)
(** ** Vocabulary of the statements *)

(** A required string field of the result against the node it was read
    from: the empty string when the key is absent, the string under the
    key otherwise. *)
Definition scalar_field (fields : list (pystr * json)) (k : string)
  (s : pystr) : Prop :=
  match assoc (u k) fields with
  | None => s = u ""
  | Some x => x = JStr s
  end.

(** An optional string field: unset when the key is absent or null. *)
Definition optional_field (fields : list (pystr * json)) (k : string)
  (o : option pystr) : Prop :=
  match dict_get fields (u k) JNull with
  | JNull => o = None
  | JStr s => o = Some s
  | _ => False
  end.

(** [m] is the money of the price node [p]: its amount coerced by
    [float], its currency code copied. *)
Definition money_from (p : json) (m : Money) : Prop :=
  exists a,
    py_getitem p (u "amount") = Ok a /\
    py_float a = Ok (amount m) /\
    py_getitem p (u "currencyCode") = Ok (JStr (currencyCode m)).











(** A computation that does not raise an [HTTPException]. *)
Definition no_http_error {A} (m : result A) : Prop :=
  forall c d, m <> Raise (HTTPException c d).

(** The [num] variable of a posted request. *)
Definition num_variable (req : Request) : result json :=
  variables <- py_getitem (req_json req) (u "variables") ;;
  py_getitem variables (u "num").

End Model.

Arguments Raise {PF A} e.

(* ================================================================= *)
(** ** Startup hook and meta routes *)

(** The messages of the two [RuntimeError]s of [ensure_config_ok]. *)
Definition config_error_message (e : config_error) : pystr :=
  match e with
  | InvalidStoreDomain =>
      u "Invalid SHOPIFY_STORE_DOMAIN. Expected 'myshop.myshopify.com' "
      ++ u "(no protocol, no trailing slash)."
  | MissingStorefrontToken => u "Missing SHOPIFY_STOREFRONT_TOKEN."
  end.

(** [_startup_check], lines 62-71: the lines it prints.  The exception of
    [ensure_config_ok] is caught and not raised again. *)
Definition _startup_check (settings : Settings) : list pystr :=
  match ensure_config_ok settings with
  | inr _ => []
  | inl e => [u "[CONFIG WARNING] " ++ config_error_message e]
  end.

Section Meta.

Context {PF : PyFloat}.

(** [health], [root] and [_config], lines 193-208. *)
Definition health : json := JObj [(u "status", JStr (u "ok"))].

Definition root : json :=
  JObj [(u "message", JStr (u "Hello from FastAPI!"))].

Definition _config (settings : Settings) : json :=
  JObj [(u "shopify_store_domain",
         JStr (normalize_domain (Some (shopify_store_domain settings))));
        (u "shopify_api_version", JStr (shopify_api_version settings));
        (u "token_present",
         JBool (str_truthy (shopify_storefront_token settings)))].

End Meta.

Section Readings.

Context {PF : PyFloat}.

(** A value that counts as not given: null (also what [.get] yields for a
    missing key) or an empty object. *)
Definition unset_value (x : json) : Prop :=
  match x with
  | JNull | JObj [] => True
  | _ => False
  end.

(** [f] is the number the value [a] stands for: a float itself, an
    integer or a boolean converted, a string parsed. *)
Definition coerces_to (a : json) (f : float) : Prop :=
  match a with
  | JFloat g => f = g
  | JInt z => float_of_int z = Some f
  | JBool b => float_of_int (if b then 1 else 0)%Z = Some f
  | JStr s => float_of_str s = Some f
  | _ => False
  end.

(** [m] is the money a price object holds: the number under [amount] and
    the string under [currencyCode]. *)
Definition money_of_node (p : json) (m : Money) : Prop :=
  exists fields a,
    p = JObj fields /\
    assoc (u "amount") fields = Some a /\
    coerces_to a (amount m) /\
    assoc (u "currencyCode") fields = Some (JStr (currencyCode m)).

End Readings.

(** [t] occurs in [s] as a contiguous run of characters. *)
Definition infix_of (t s : pystr) : Prop :=
  exists pre suf, s = pre ++ t ++ suf.

(** A character [normalize_domain] removes at the ends. *)
Definition is_trimmed_char (c : N) : bool := is_space c || (c =? 47)%N.

(** [s] neither starts nor ends with whitespace or [/]. *)
Definition clean_ends (s : pystr) : bool :=
  match s, rev s with
  | c :: _, c' :: _ => negb (is_trimmed_char c) && negb (is_trimmed_char c')
  | _, _ => true
  end.

(* ================================================================= *)
(** ** A float instance for concrete evaluations *)

(** Exact decimals [mant * 10^(-scale)], read from plain decimal
    literals (an optional sign, digits, an optional fraction).  On these
    literals and on integers the conversions succeed as Python's do, and
    a string without a digit is refused as Python refuses it; the other
    spellings Python reads (exponents, [inf], [nan], underscores) are
    not used.  The instance serves to evaluate the program on concrete
    bodies; the theorems hold for every instance. *)
Module Decimal.

Record dec := { mant : Z; scale : nat }.

Definition is_digit (c : N) : bool := ((48 <=? c) && (c <=? 57))%N.

Fixpoint digits (s : pystr) (acc : Z) : option Z :=
  match s with
  | [] => Some acc
  | c :: r => if is_digit c
              then digits r (10 * acc + Z.of_N (c - 48))%Z
              else None
  end.

Fixpoint split_dot (s : pystr) : pystr * option pystr :=
  match s with
  | [] => ([], None)
  | c :: r => if (c =? 46)%N then ([], Some r)
              else let (a, b) := split_dot r in (c :: a, b)
  end.

Definition unsigned (s : pystr) : option dec :=
  match split_dot s with
  | ([], _) => None
  | (ip, None) =>
      match digits ip 0 with
      | Some m => Some {| mant := m; scale := 0 |}
      | None => None
      end
  | (ip, Some fp) =>
      match digits (ip ++ fp) 0 with
      | Some m => Some {| mant := m; scale := List.length fp |}
      | None => None
      end
  end.

Definition of_str (s : pystr) : option dec :=
  match strip s with
  | 45%N :: r =>
      match unsigned r with
      | Some d => Some {| mant := - mant d; scale := scale d |}
      | None => None
      end
  | 43%N :: r => unsigned r
  | r => unsigned r
  end.

#[export] Instance decimal_float : PyFloat :=
  {| float := dec;
     float_of_int := fun z => Some {| mant := z; scale := 0 |};
     float_of_str := of_str;
     float_is_zero := fun d => (mant d =? 0)%Z |}.

End Decimal.


(* ================================================================= *)
(** ** Sample data *)

Module Samples.

Import Decimal.

Definition cfg : Settings :=
  {| shopify_store_domain := u "example.myshopify.com";
     shopify_storefront_token := u " shpat_1 ";
     shopify_api_version := u "2024-07" |}.

(** No usable default domain, and a token. *)
Definition cfg_bad_domain : Settings :=
  {| shopify_store_domain := u "localhost";
     shopify_storefront_token := u "shpat_1";
     shopify_api_version := u "2024-07" |}.

(** A whitespace-only token. *)
Definition cfg_blank_token : Settings :=
  {| shopify_store_domain := u "example.myshopify.com";
     shopify_storefront_token := u "  ";
     shopify_api_version := u "2024-07" |}.

Definition price_cad (amount_ : json) : json :=
  JObj [(u "amount", amount_); (u "currencyCode", JStr (u "CAD"))].

Definition image_ (url_ alt : string) : json :=
  JObj [(u "url", JStr (u url_)); (u "altText", JStr (u alt))].

Definition edges_ (l : list json) : json := JObj [(u "edges", JArr l)].

Definition node_ (fields : list (pystr * json)) : json :=
  JObj [(u "node", JObj fields)].




(** A product with an empty variant list and no image. *)
Definition bare : json :=
  node_ [(u "id", JStr (u "gid://shopify/Product/2"));
         (u "variants", edges_ [])].

Definition bare_result : ProductResult :=
  {| id := u "gid://shopify/Product/2"; title := u ""; handle := u "";
     url := None; price := None; image := None; imageAlt := None |}.

(** A product whose price amount is not a number. *)
Definition mispriced : json :=
  node_ [(u "id", JStr (u "gid://shopify/Product/3"));
         (u "variants",
          edges_ [node_ [(u "price", price_cad (JStr (u "abc")))]])].

(** A product whose first gallery edge has no [node], and its siblings:
    a variant edge without [node], a product edge without [node]. *)
Definition gallery_edge_without_node : json :=
  node_ [(u "id", JStr (u "gid://shopify/Product/4"));
         (u "images", edges_ [JObj []])].

Definition variant_edge_without_node : json :=
  node_ [(u "id", JStr (u "gid://shopify/Product/4"));
         (u "variants", edges_ [JObj []])].

Definition product_edge_without_node : json := JObj [].

Definition body_of (edges : list json) : json :=
  JObj [(u "data", JObj [(u "products", edges_ edges)])].

(** An upstream that answers every request the same way. *)
Definition answers (status : Z) (text_ : string) (body : option json)
  : Request -> result Response :=
  fun _ => Ok {| status_code := status; text := u text_; json_body := body |}.

Definition graphql_errors : json :=
  JArr [JObj [(u "message", JStr (u "Field does not exist"))]].

End Samples.

(** Products with several variants and gallery images. *)
Module Samples2.

Import Decimal.

(** Two variants; the first carries both price fields. *)
Definition first_variant_fields : list (pystr * json) :=
  [(u "price", Samples.price_cad (JStr (u "1.00")));
   (u "priceV2", Samples.price_cad (JStr (u "9.00")))].

Definition two_variants_fields : list (pystr * json) :=
  [(u "id", JStr (u "gid://shopify/Product/5"));
   (u "variants",
    Samples.edges_
      [Samples.node_ first_variant_fields;
       Samples.node_ [(u "price", Samples.price_cad (JStr (u "2.00")))]])].

Definition two_variants : json := Samples.node_ two_variants_fields.

Definition two_variants_result : ProductResult :=
  {| id := u "gid://shopify/Product/5"; title := u ""; handle := u "";
     url := None;
     price := Some {| amount := {| mant := 100; scale := 2 |};
                      currencyCode := u "CAD" |};
     image := None; imageAlt := None |}.

(** A first variant with only the legacy price field. *)
Definition legacy_variant_fields : list (pystr * json) :=
  [(u "priceV2", Samples.price_cad (JStr (u "12.50")))].

Definition legacy_only : json :=
  Samples.node_
    [(u "variants",
      Samples.edges_
        [Samples.node_ legacy_variant_fields;
         Samples.node_ [(u "price", Samples.price_cad (JStr (u "2.00")))]])].

Definition legacy_only_result : ProductResult :=
  {| id := u ""; title := u ""; handle := u ""; url := None;
     price := Some {| amount := {| mant := 1250; scale := 2 |};
                      currencyCode := u "CAD" |};
     image := None; imageAlt := None |}.

(** A first variant without any price. *)
Definition unpriced : json :=
  Samples.node_
    [(u "variants",
      Samples.edges_
        [Samples.node_ [];
         Samples.node_ [(u "price", Samples.price_cad (JStr (u "2.00")))]])].

Definition unpriced_result : ProductResult :=
  {| id := u ""; title := u ""; handle := u ""; url := None;
     price := None; image := None; imageAlt := None |}.





End Samples2.

(* ================================================================= *)
(** * Properties *)

(** ** Strings *)

Lemma pystr_eqb_eq (a b : pystr) : pystr_eqb a b = true <-> a = b.
Proof.
  revert b; induction a as [|x a IH]; intros [|y b]; simpl;
    try (split; [discriminate | congruence]); try tauto.
  rewrite andb_true_iff, N.eqb_eq, IH.
  split; [intros [-> ->]; reflexivity | intros E; inversion E; auto].
Qed.

Lemma pystr_eqb_refl (a : pystr) : pystr_eqb a a = true.
Proof. apply pystr_eqb_eq; reflexivity. Qed.

Lemma startswith_app (p r : pystr) : startswith p (p ++ r) = true.
Proof.
  induction p as [|c p IH]; simpl; [reflexivity|].
  rewrite N.eqb_refl; exact IH.
Qed.

Lemma startswith_split (p s : pystr) :
  startswith p s = true -> s = p ++ skipn (List.length p) s.
Proof.
  revert s; induction p as [|c p IH]; intros s H; simpl in *; [reflexivity|].
  destruct s as [|b s]; [discriminate|].
  apply andb_true_iff in H as [Hc Hp]; apply N.eqb_eq in Hc; subst b.
  f_equal; apply IH, Hp.
Qed.

Lemma skipn_app_exact (p r : pystr) : skipn (List.length p) (p ++ r) = r.
Proof. induction p; simpl; auto. Qed.

Section Strip.

Variable p : N -> bool.

Lemma lstrip_by_head (s : pystr) :
  match lstrip_by p s with
  | [] => True
  | c :: _ => p c = false
  end.
Proof.
  induction s as [|c s IH]; simpl; [exact I|].
  destruct (p c) eqn:E; [exact IH | exact E].
Qed.

Lemma lstrip_by_fix (c : N) (s : pystr) :
  p c = false -> lstrip_by p (c :: s) = c :: s.
Proof. intros H; simpl; rewrite H; reflexivity. Qed.

Lemma lstrip_by_all (s : pystr) :
  lstrip_by p s = [] <-> forallb p s = true.
Proof.
  induction s as [|c s IH]; simpl; [tauto|].
  destruct (p c); simpl; [exact IH | split; discriminate].
Qed.

Lemma lstrip_by_snoc (s : pystr) (c : N) :
  p c = false -> lstrip_by p (s ++ [c]) = lstrip_by p s ++ [c].
Proof.
  intros H; induction s as [|b s IH]; simpl.
  - rewrite H; reflexivity.
  - destruct (p b); [exact IH | reflexivity].
Qed.

Lemma rstrip_by_cons (c : N) (s : pystr) :
  p c = false -> rstrip_by p (c :: s) = c :: rstrip_by p s.
Proof.
  intros H; unfold rstrip_by; simpl.
  rewrite lstrip_by_snoc by exact H.
  rewrite rev_app_distr; reflexivity.
Qed.

Lemma rstrip_by_last (s r : pystr) (c : N) :
  rstrip_by p s = r ++ [c] -> p c = false.
Proof.
  unfold rstrip_by; intros H.
  apply (f_equal (@rev N)) in H.
  rewrite rev_involutive, rev_app_distr in H; simpl in H.
  pose proof (lstrip_by_head (rev s)) as Hh; rewrite H in Hh; exact Hh.
Qed.

Lemma rstrip_by_fix (s : pystr) :
  rstrip_by p (rstrip_by p s) = rstrip_by p s.
Proof.
  unfold rstrip_by; rewrite rev_involutive.
  pose proof (lstrip_by_head (rev s)) as Hh.
  destruct (lstrip_by p (rev s)) as [|c r]; [reflexivity|].
  rewrite lstrip_by_fix by exact Hh; reflexivity.
Qed.

(** The outcome of [strip] neither starts nor ends with a stripped
    character. *)
Lemma strip_by_head (s : pystr) :
  match strip_by p s with
  | [] => True
  | c :: _ => p c = false
  end.
Proof.
  unfold strip_by.
  pose proof (lstrip_by_head s) as Hh.
  destruct (lstrip_by p s) as [|c r]; [exact I|].
  rewrite rstrip_by_cons by exact Hh; exact Hh.
Qed.

Lemma strip_by_last (s r : pystr) (c : N) :
  strip_by p s = r ++ [c] -> p c = false.
Proof. apply rstrip_by_last. Qed.

Lemma strip_by_idem (s : pystr) : strip_by p (strip_by p s) = strip_by p s.
Proof.
  pose proof (strip_by_head s) as Hh.
  unfold strip_by at 1.
  destruct (strip_by p s) as [|c r] eqn:E; [reflexivity|].
  rewrite lstrip_by_fix by exact Hh.
  rewrite <- E; unfold strip_by; apply rstrip_by_fix.
Qed.

Lemma strip_by_empty (s : pystr) :
  strip_by p s = [] <-> forallb p s = true.
Proof.
  rewrite <- lstrip_by_all; unfold strip_by.
  pose proof (lstrip_by_head s) as Hh.
  destruct (lstrip_by p s) as [|c r]; [tauto|].
  rewrite rstrip_by_cons by exact Hh; split; discriminate.
Qed.

End Strip.

(* ================================================================= *)
(** ** [normalize_domain] *)

Lemma domain_or_empty (domain : option pystr) :
  match domain with
  | Some s => if str_truthy s then s else u ""
  | None => u ""
  end = match domain with Some s => s | None => [] end.
Proof. destruct domain as [[|c s]|]; reflexivity. Qed.

Lemma strip_chars_slash_head (s r : pystr) :
  strip_chars (u "/") s <> 47%N :: r.
Proof.
  intros E. pose proof (strip_by_head (fun c => existsb (N.eqb c) (u "/")) s) as H.
  unfold strip_chars in E; rewrite E in H; discriminate H.
Qed.

Lemma strip_chars_slash_last (s r : pystr) :
  strip_chars (u "/") s <> r ++ [47%N].
Proof.
  intros E. apply strip_by_last in E; discriminate E.
Qed.

(** The sentence of the specification fails on an input that carries both
    prefixes: the code strips both, the first-match reading strips one. *)
Lemma normalize_domain_strips_both_prefixes :
  normalize_domain (Some (u "http://https://shop.com")) = u "shop.com" /\
  normalize_first_match_only (u "http://https://shop.com") = u "https://shop.com" /\
  normalize_domain (Some (u "http://https://shop.com"))
    <> normalize_first_match_only (u "http://https://shop.com").
Proof. repeat split; try reflexivity. discriminate. Qed.

(** C6 (as amended).  [normalize_domain] is a total function of its
    argument ([None] and any string).  With [d] the trimmed input: a
    leading [http://] is stripped, and a leading [https://] of what
    remains is stripped as well (so an input starting [http://https://]
    loses both prefixes); otherwise a leading [https://] is stripped;
    otherwise nothing is.  The remainder is trimmed again and its leading
    and trailing [/] are removed, so that the outcome neither starts nor
    ends with [/].  The prefixes are matched literally (case-sensitive),
    and the three examples of the specification evaluate as stated. *)
Theorem normalize_domain_spec (domain : option pystr) :
  let d := strip (match domain with Some s => s | None => [] end) in
  (forall r, d = u "http://" ++ r -> startswith (u "https://") r = false ->
     normalize_domain domain = strip_chars (u "/") (strip r)) /\
  (forall r, d = u "http://" ++ u "https://" ++ r ->
     normalize_domain domain = strip_chars (u "/") (strip r)) /\
  (forall r, d = u "https://" ++ r ->
     normalize_domain domain = strip_chars (u "/") (strip r)) /\
  (startswith (u "http://") d = false ->
   startswith (u "https://") d = false ->
     normalize_domain domain = strip_chars (u "/") d) /\
  (forall r, normalize_domain domain <> 47%N :: r) /\
  (forall r, normalize_domain domain <> r ++ [47%N]) /\
  normalize_domain (Some (u "https://Shop.myshopify.com/"))
    = u "Shop.myshopify.com" /\
  normalize_domain (Some (u "  shop.com  ")) = u "shop.com" /\
  normalize_domain (Some (u "")) = u "" /\
  normalize_domain (Some (u "HTTPS://shop.com")) = u "HTTPS://shop.com".
Proof.
  intros d. unfold normalize_domain. rewrite domain_or_empty. fold d.
  repeat split; try reflexivity.
  - intros r E Hr. rewrite E, startswith_app, skipn_app_exact, Hr.
    reflexivity.
  - intros r E. rewrite E, startswith_app, skipn_app_exact.
    rewrite startswith_app, skipn_app_exact. reflexivity.
  - intros r E. rewrite E.
    change (startswith (u "http://") (u "https://" ++ r)) with false.
    cbv iota. rewrite startswith_app, skipn_app_exact. reflexivity.
  - intros H1 H2. rewrite H1, H2. unfold d, strip.
    rewrite strip_by_idem. reflexivity.
  - intros r. apply strip_chars_slash_head.
  - intros r. apply strip_chars_slash_last.
Qed.

Lemma normalize_domain_spec_witness :
  normalize_domain (Some (u " http://https://shop.com/ ")) = u "shop.com" /\
  normalize_domain (Some (u "http://shop.com")) = u "shop.com" /\
  normalize_domain (Some (u "https://shop.com")) = u "shop.com" /\
  normalize_domain (Some (u "/shop.com/")) = u "shop.com".
Proof.
  split; [| split; [| split]].
  - exact (proj1 (proj2 (normalize_domain_spec
             (Some (u " http://https://shop.com/ "))))
             (u "shop.com/") eq_refl).
  - exact (proj1 (normalize_domain_spec (Some (u "http://shop.com")))
             (u "shop.com") eq_refl eq_refl).
  - exact (proj1 (proj2 (proj2 (normalize_domain_spec
             (Some (u "https://shop.com")))))
             (u "shop.com") eq_refl).
  - exact (proj1 (proj2 (proj2 (proj2 (normalize_domain_spec
             (Some (u "/shop.com/"))))))
             eq_refl eq_refl).
Defined.

(* ================================================================= *)
(** ** The result normalizer *)

Section Normalizer.

Context {PF : PyFloat}.

Lemma bind_ok {A B} (m : result A) (k : A -> result B) (b : B) :
  bind m k = Ok b -> exists a, m = Ok a /\ k a = Ok b.
Proof. destruct m as [a|e]; simpl; [eauto | discriminate]. Qed.

Lemma bind_raise {A B} (m : result A) (k : A -> result B) (e : exn) :
  m = Raise e -> bind m k = Raise e.
Proof. intros ->; reflexivity. Qed.

Lemma py_get_ok (x : json) (k : pystr) (d v : json) :
  py_get x k d = Ok v -> exists kvs, x = JObj kvs /\ v = dict_get kvs k d.
Proof.
  destruct x; simpl; try discriminate.
  intros E; injection E as <-; eauto.
Qed.

Lemma validate_str_ok (x : json) (s : pystr) :
  validate_str x = Ok s -> x = JStr s.
Proof. destruct x; simpl; try discriminate; congruence. Qed.

Lemma validate_opt_str_ok (x : json) (o : option pystr) :
  validate_opt_str x = Ok o ->
  match x with JNull => o = None | JStr s => o = Some s | _ => False end.
Proof. destruct x; simpl; try discriminate; congruence. Qed.

(** Decompose a successful run of monadic code into its steps. *)
Ltac run H :=
  repeat match type of H with
  | bind _ _ = Ok _ =>
      let a := fresh "x" in let E := fresh "E" in
      apply bind_ok in H as (a & E & H)
  end.



Lemma money_of_ok (p : json) (o : option Money) :
  money_of p = Ok o ->
  if truthy p then exists m, o = Some m /\ money_from p m else o = None.
Proof.
  unfold money_of. destruct (truthy p); [|congruence].
  intros H. run H. injection H as <-.
  apply validate_str_ok in E2; subst.
  eexists; split; [reflexivity|]. exists x; simpl; auto.
Qed.

Lemma price_node_of_ok (node price_node : json) :
  price_node_of node = Ok price_node ->
  exists variant_edges,
    variant_edges_of node = Ok variant_edges /\
    if truthy variant_edges then
      exists v, first_variant_of variant_edges = Ok (JObj v) /\
        price_node = py_or (dict_get v (u "price") JNull)
                           (dict_get v (u "priceV2") JNull)
    else price_node = JNull.
Proof.
  unfold price_node_of. intros H. run H.
  exists x; split; [exact E|].
  destruct (truthy x); [|congruence].
  run H. apply py_get_ok in E1 as (v & -> & ->).
  exists v; split; [exact E0|]. unfold py_or.
  destruct (truthy (dict_get v (u "price") JNull)); simpl in H; congruence.
Qed.


Lemma scalar_field_of (fields : list (pystr * json)) (k : string)
  (s : pystr) :
  validate_str (dict_get fields (u k) (JStr (u ""))) = Ok s ->
  scalar_field fields k s.
Proof.
  unfold scalar_field, dict_get. intros H; apply validate_str_ok in H.
  destruct (assoc (u k) fields); congruence.
Qed.

(** What a successful turn of the loop read, step by step. *)
Lemma normalize_edge_ok (edge : json) (r : ProductResult) :
  normalize_edge edge = Ok r ->
  exists node price_node img,
    py_get edge (u "node") (JObj []) = Ok (JObj node) /\
    price_node_of (JObj node) = Ok price_node /\
    img_node_of (JObj node) = Ok (JObj img) /\
    money_of price_node = Ok (price r) /\
    scalar_field node "id" (id r) /\
    scalar_field node "title" (title r) /\
    scalar_field node "handle" (handle r) /\
    optional_field node "onlineStoreUrl" (url r) /\
    optional_field img "url" (image r) /\
    optional_field img "altText" (imageAlt r).
Proof.
  unfold normalize_edge. intros H. run H. injection H as <-. simpl.
  apply py_get_ok in E2 as (node & -> & ->).
  apply py_get_ok in E3 as (? & [= <-] & ->).
  apply py_get_ok in E4 as (? & [= <-] & ->).
  apply py_get_ok in E5 as (? & [= <-] & ->).
  apply py_get_ok in E7 as (img & -> & ->).
  apply py_get_ok in E8 as (? & [= <-] & ->).
  exists node, x0, img.
  repeat split; auto using scalar_field_of;
    unfold optional_field; apply validate_opt_str_ok; assumption.
Qed.

(** *** The readings of a successful turn, on the data *)

Lemma py_float_coerces (a : json) (f : float) :
  py_float a = Ok f -> coerces_to a f.
Proof.
  destruct a; simpl; try discriminate.
  - destruct (float_of_int _); [congruence | discriminate].
  - destruct (float_of_int z); [congruence | discriminate].
  - congruence.
  - destruct (float_of_str s); [congruence | discriminate].
Qed.

Lemma money_of_data (p : json) (o : option Money) :
  money_of p = Ok o ->
  (unset_value p -> o = None) /\
  (forall kv pf, p = JObj (kv :: pf) ->
     exists m, o = Some m /\ money_of_node p m).
Proof.
  intros H. apply money_of_ok in H. split.
  - destruct p as [| | | | | |[|kv pf]]; simpl; try tauto; intros _; exact H.
  - intros kv pf ->. simpl in H. destruct H as (m & -> & a & Ha & Hf & Hc).
    exists m. split; [reflexivity|].
    exists (kv :: pf), a. split; [reflexivity|].
    unfold py_getitem in Ha, Hc.
    destruct (assoc (u "amount") (kv :: pf)) as [a'|]; [|discriminate].
    destruct (assoc (u "currencyCode") (kv :: pf)) as [c'|]; [|discriminate].
    injection Ha as ->. injection Hc as ->.
    auto using py_float_coerces.
Qed.

Lemma price_node_of_data (node : list (pystr * json)) (price_node : json) :
  price_node_of (JObj node) = Ok price_node ->
  exists vs,
    dict_get node (u "variants") (JObj []) = JObj vs /\
    let variant_edges := dict_get vs (u "edges") (JArr []) in
    (variant_edges = JArr [] -> price_node = JNull) /\
    (forall first rest, variant_edges = JArr (first :: rest) ->
       exists ff v,
         first = JObj ff /\
         dict_get ff (u "node") (JObj []) = JObj v /\
         price_node = py_or (dict_get v (u "price") JNull)
                            (dict_get v (u "priceV2") JNull)) /\
    ((forall l, variant_edges <> JArr l) -> price_node = JNull).
Proof.
  intros H. apply price_node_of_ok in H as (ves & Hv & H).
  unfold variant_edges_of in Hv.
  apply bind_ok in Hv as (variants & Hv & Hves).
  apply py_get_ok in Hv as (? & [= <-] & ->).
  apply py_get_ok in Hves as (vs & Hvs & ->).
  exists vs. split; [exact Hvs|]. cbv zeta.
  split; [|split].
  - intros E. rewrite E in H. exact H.
  - intros first rest E. rewrite E in H. simpl in H.
    destruct H as (v & Hf & ->).
    unfold first_variant_of in Hf. simpl in Hf.
    apply py_get_ok in Hf as (ff & -> & Hv).
    exists ff, v. auto.
  - intros Hn.
    destruct (truthy (dict_get vs (u "edges") (JArr []))) eqn:Et;
      [|exact H].
    destruct H as (v & Hf & _). unfold first_variant_of in Hf.
    apply bind_ok in Hf as (first & H0 & Hf).
    destruct (dict_get vs (u "edges") (JArr [])) as [| | | |[|c s']|l|[|kv o]];
      simpl in H0, Et; try discriminate.
    + injection H0 as <-. discriminate Hf.
    + destruct (Hn l eq_refl).
Qed.


(** C2.  For every edge the normalizer turns into a [ProductResult],
    with [variant_edges] the [edges] list under the node's [variants]:
    when the list is empty the price is unset; otherwise, with [v] the
    [node] of the first entry of the list, the price is the money held
    by [v]'s [price] when that is an object with entries, else (when
    [price] is absent, null or empty) the money held by [v]'s [priceV2]
    when that is an object with entries, else (when [priceV2] is absent,
    null or empty too) unset; a money is the number its price object's
    [amount] coerces to and the string under [currencyCode].  The id,
    title and handle are the node's strings, the empty string when the
    key is absent. *)
Theorem normalize_edge_price (edge : json) (r : ProductResult) :
  normalize_edge edge = Ok r ->
  exists ef node vs,
    edge = JObj ef /\
    dict_get ef (u "node") (JObj []) = JObj node /\
    dict_get node (u "variants") (JObj []) = JObj vs /\
    let variant_edges := dict_get vs (u "edges") (JArr []) in
    (variant_edges = JArr [] -> price r = None) /\
    (forall first rest, variant_edges = JArr (first :: rest) ->
     exists ff v,
       first = JObj ff /\
       dict_get ff (u "node") (JObj []) = JObj v /\
       let p1 := dict_get v (u "price") JNull in
       let p2 := dict_get v (u "priceV2") JNull in
       (forall kv pf, p1 = JObj (kv :: pf) ->
        exists m, price r = Some m /\ money_of_node p1 m) /\
       (unset_value p1 ->
        (forall kv pf, p2 = JObj (kv :: pf) ->
         exists m, price r = Some m /\ money_of_node p2 m) /\
        (unset_value p2 -> price r = None))) /\
    scalar_field node "id" (id r) /\
    scalar_field node "title" (title r) /\
    scalar_field node "handle" (handle r).
Proof.
  intros H.
  apply normalize_edge_ok in H
    as (node & pn & img & Hn & Hp & _ & Hm & Hid & Ht & Hh & _).
  apply py_get_ok in Hn as (ef & -> & Hn). symmetry in Hn.
  apply price_node_of_data in Hp as (vs & Hvs & Hempty & Hfirst & _).
  apply money_of_data in Hm as (Hunset & Hobj).
  exists ef, node, vs. repeat (split; [assumption || reflexivity|]).
  cbv zeta. split; [|split; [|auto]].
  - intros E. apply Hunset. rewrite (Hempty E). exact I.
  - intros first rest E.
    destruct (Hfirst first rest E) as (ff & v & -> & Hv & Hpn).
    exists ff, v. split; [reflexivity|]. split; [exact Hv|].
    unfold py_or in Hpn. split.
    + intros kv pf E1. rewrite E1 in Hpn. simpl in Hpn. subst pn.
      rewrite E1. exact (Hobj kv pf eq_refl).
    + intros Hu1.
      assert (Hf : truthy (dict_get v (u "price") JNull) = false).
      { destruct (dict_get v (u "price") JNull) as [| | | | | |[|kv o]];
          simpl in Hu1; try tauto; reflexivity. }
      rewrite Hf in Hpn. subst pn. split.
      * intros kv pf E2. exact (Hobj kv pf E2).
      * exact Hunset.
Qed.


(** *** Conforming edges are normalized *)








End Normalizer.

(* ================================================================= *)
(** ** The client *)

Section Client.

Context {PF : PyFloat}.

Variable settings : Settings.
Variable post : Request -> result Response.
Variable query : pystr.
Variable limit : Z.
Variable store_domain : option pystr.

Local Abbreviation outcome :=
  (search_shopify_products settings post query limit store_domain).

(** At most one request is posted, and the outcome is then what
    [read_response] makes of the answer. *)
Lemma posted_request (req : Request) :
  In req (fst outcome) ->
  exists domain,
    str_truthy (strip (shopify_storefront_token settings)) = true /\
    req = build_request settings domain
            (strip (shopify_storefront_token settings)) query limit /\
    (opt_truthy store_domain = true -> domain = normalize_domain store_domain) /\
    fst outcome = [req] /\
    snd outcome = bind (post req) read_response.
Proof.
  unfold outcome, search_shopify_products.
  destruct (opt_truthy store_domain) eqn:Es.
  - destruct (str_truthy (strip (shopify_storefront_token settings))) eqn:Et;
      simpl; [|tauto].
    intros [<- | []]. eexists; repeat split; reflexivity.
  - destruct (ensure_config_ok settings) as [e|d]; simpl; [tauto|].
    destruct (str_truthy (strip (shopify_storefront_token settings))) eqn:Et;
      simpl; [|tauto].
    intros [<- | []]. eexists; repeat split; try reflexivity. discriminate.
Qed.

(** C10.  When the configured token is empty or made of whitespace only,
    a call with a store override posts nothing and raises the HTTP 500
    error of the token check; with or without an override, no request is
    posted and the call raises. *)
Theorem token_required_despite_override :
  forallb is_space (shopify_storefront_token settings) = true ->
  (opt_truthy store_domain = true ->
   outcome = ([], Raise (HTTPException 500
     (JStr (u "Missing SHOPIFY_STOREFRONT_TOKEN. Set it in your .env."))))) /\
  fst outcome = [] /\
  exists e, snd outcome = Raise e.
Proof.
  intros Ht. apply strip_by_empty in Ht.
  unfold outcome, search_shopify_products, strip.
  destruct (opt_truthy store_domain); simpl; rewrite Ht; simpl.
  - eauto.
  - split; [discriminate|].
    destruct (ensure_config_ok settings); simpl; rewrite ?Ht; simpl; eauto.
Qed.

(** C8.  The [num] variable of every request the function posts is the
    limit clamped to [1, 50]. *)
Theorem num_is_clamped_limit (req : Request) :
  In req (fst outcome) ->
  num_variable req = Ok (JInt (num_of limit)) /\
  (1 <= num_of limit <= 50)%Z /\
  (limit < 1 -> num_of limit = 1)%Z /\
  (50 < limit -> num_of limit = 50)%Z /\
  (1 <= limit <= 50 -> num_of limit = limit)%Z.
Proof.
  intros H. apply posted_request in H as (domain & _ & -> & _).
  split; [reflexivity|]. unfold num_of. lia.
Qed.

(** Only [read_response] raises an [HTTPException] once a request is
    posted: the normalizer raises Python and validation errors. *)
Lemma no_http_ok {A} (a : A) : no_http_error (Ok a).
Proof. intros c d; discriminate. Qed.

Lemma no_http_bind {A B} (m : result A) (k : A -> result B) :
  no_http_error m -> (forall a, no_http_error (k a)) ->
  no_http_error (bind m k).
Proof.
  intros Hm Hk c d. destruct m as [a|e]; simpl; [apply Hk|].
  intros E; apply (Hm c d); congruence.
Qed.

Lemma no_http_py_get x k d : no_http_error (py_get x k d).
Proof. intros c e; destruct x; discriminate. Qed.

Lemma no_http_py_getitem x k : no_http_error (py_getitem x k).
Proof.
  intros c e; destruct x; try discriminate.
  simpl; destruct (assoc k fields); discriminate.
Qed.

Lemma no_http_py_getitem0 x : no_http_error (py_getitem0 x).
Proof. intros c e; destruct x as [| | | |[|]|[|]|]; discriminate. Qed.

Lemma no_http_py_float x : no_http_error (py_float x).
Proof.
  intros c e; destruct x; simpl; try discriminate.
  - destruct (float_of_int _); discriminate.
  - destruct (float_of_int _); discriminate.
  - destruct (float_of_str _); discriminate.
Qed.

Lemma no_http_validate_str x : no_http_error (validate_str x).
Proof. intros c e; destruct x; discriminate. Qed.

Lemma no_http_validate_opt_str x : no_http_error (validate_opt_str x).
Proof. intros c e; destruct x; discriminate. Qed.

Lemma no_http_py_iter x : no_http_error (py_iter x).
Proof. intros c e; destruct x; discriminate. Qed.

Ltac no_http :=
  repeat first
    [ apply no_http_ok
    | apply no_http_py_get
    | apply no_http_py_getitem
    | apply no_http_py_getitem0
    | apply no_http_py_float
    | apply no_http_validate_str
    | apply no_http_validate_opt_str
    | apply no_http_py_iter
    | apply no_http_bind; [|intro]
    | match goal with
      | |- no_http_error (if ?b then _ else _) => destruct b
      end ].

Lemma no_http_normalize_edge edge : no_http_error (normalize_edge edge).
Proof.
  unfold normalize_edge, price_node_of, img_node_of, money_of,
    variant_edges_of, first_variant_of, featured_of, img_edges_of.
  no_http.
Qed.

Lemma no_http_normalize_loop edges acc :
  no_http_error (normalize_loop edges acc).
Proof.
  revert acc; induction edges as [|e es IH]; intros acc; simpl.
  - apply no_http_ok.
  - apply no_http_bind; [apply no_http_normalize_edge | intro; apply IH].
Qed.

(** C4 (as amended).  Once the request is posted and answered: a
    status other than 200 raises the upstream-failure error (HTTP 502)
    carrying the body parsed as JSON, or the raw text when the body does
    not parse; a 200 whose body is an object with an [errors] entry, an
    array or any other value, raises the upstream-GraphQL error (HTTP
    502) carrying that entry; these are the only answers on which an
    [HTTPException] is raised, other answers raising other exceptions or
    none; and a success is returned only on a 200 whose body is an
    object without [errors]. *)
Theorem upstream_errors_are_raised (req : Request) (resp : Response) :
  fst outcome = [req] ->
  post req = Ok resp ->
  (status_code resp <> 200%Z ->
   snd outcome =
     Raise (HTTPException 502
       (obj2 "message" (JStr (u "Shopify request failed"))
             "error" (match json_body resp with
                      | Some j => j
                      | None => JStr (text resp)
                      end)))) /\
  (forall fields errors,
     status_code resp = 200%Z ->
     json_body resp = Some (JObj fields) ->
     assoc (u "errors") fields = Some errors ->
     snd outcome =
       Raise (HTTPException 502
         (obj2 "message" (JStr (u "Shopify GraphQL error"))
               "error" errors))) /\
  (forall code detail,
     snd outcome = Raise (HTTPException code detail) ->
     code = 502%Z /\
     (status_code resp <> 200%Z \/
      exists fields errors,
        json_body resp = Some (JObj fields) /\
        assoc (u "errors") fields = Some errors)) /\
  (forall results,
     snd outcome = Ok results ->
     status_code resp = 200%Z /\
     exists fields,
       json_body resp = Some (JObj fields) /\
       assoc (u "errors") fields = None).
Proof.
  intros Hlog Hpost.
  assert (Hin : In req (fst outcome)) by (rewrite Hlog; left; reflexivity).
  apply posted_request in Hin as (_ & _ & _ & _ & _ & Hout).
  rewrite Hout, Hpost. simpl bind. unfold read_response.
  split; [|split; [|split]].
  - intros Hs. apply Z.eqb_neq in Hs. rewrite Hs. reflexivity.
  - intros fields errors Hs Hb He. rewrite Hs. simpl.
    unfold resp_json. rewrite Hb. simpl. rewrite He. simpl.
    reflexivity.
  - intros code detail.
    destruct (status_code resp =? 200)%Z eqn:Hs; simpl.
    2:{ intros [= <- _]. split; [reflexivity|]. left.
        apply Z.eqb_neq, Hs. }
    unfold resp_json.
    destruct (json_body resp) as [data|]; simpl; [|discriminate].
    destruct data as [| | | |s|l|fields]; simpl; try discriminate.
    + destruct (substring_in (u "errors") s); discriminate.
    + destruct (existsb _ l); discriminate.
    + destruct (assoc (u "errors") fields) as [errors|] eqn:He; simpl.
      * intros [= <- _]. split; [reflexivity|]. right; eauto.
      * intros E. exfalso. revert E.
        apply (@no_http_bind _ _ (edges_of (JObj fields))).
        -- unfold edges_of. no_http.
        -- intro. no_http. apply no_http_normalize_loop.
  - intros results.
    destruct (status_code resp =? 200)%Z eqn:Hs; simpl; [|discriminate].
    apply Z.eqb_eq in Hs. unfold resp_json.
    destruct (json_body resp) as [data|]; simpl; [|discriminate].
    destruct data as [| | | |s|l|fields]; simpl; try discriminate.
    + destruct (substring_in (u "errors") s); discriminate.
    + destruct (existsb _ l); discriminate.
    + destruct (assoc (u "errors") fields) as [errors|] eqn:He; simpl;
        [discriminate|].
      intros _. split; [exact Hs|]. eauto.
Qed.



(** A 200 answer without [errors] whose edges conform is a success with
    one result per edge; a missing [data], [products] or [edges] level
    is an empty edge list. *)
Lemma edges_of_absent (fields : list (pystr * json)) :
  assoc (u "data") fields = None \/
  (exists d, assoc (u "data") fields = Some (JObj d) /\
     (assoc (u "products") d = None \/
      exists ps, assoc (u "products") d = Some (JObj ps) /\
                 assoc (u "edges") ps = None)) ->
  edges_of (JObj fields) = Ok (JArr []).
Proof.
  intros [H1 | (d & H1 & [H2 | (ps & H2 & H3)])];
    unfold edges_of; cbn [py_get bind]; unfold dict_get; rewrite H1;
    cbn [py_get bind]; unfold dict_get; try rewrite H2;
    cbn [py_get bind]; unfold dict_get; try rewrite H3; reflexivity.
Qed.


End Client.

(* ================================================================= *)
(** ** The [/search] route *)

Section Routes.

Context {PF : PyFloat}.

Variable settings : Settings.
Variable post : Request -> result Response.

Lemma search_body_log (q : pystr) (l : Z) (st : option pystr) :
  fst (search_body settings post q l st)
  = fst (search_shopify_products settings post q l st).
Proof.
  unfold search_body.
  destruct (search_shopify_products settings post q l st); reflexivity.
Qed.



(** C7 (as amended).  The route rejects a request without [q], and a
    request whose [limit] is below 1 or above 50, with a validation
    error and without calling the upstream (the value is not clamped);
    an omitted [limit] is 5; any string [q], the empty one included,
    with a limit in range reaches the handler body unchanged; and with a
    non-empty [store] override and a token, the request goes to the
    normalized override, whatever the configured default domain is and
    whether or not it would pass the configuration check. *)
Theorem search_validates_at_boundary
  (q : option pystr) (st : option pystr) :
  (forall limit,
     search settings post None limit st = ([], Raise RequestValidationError)) /\
  (forall l, (l < 1 \/ 50 < l)%Z ->
     search settings post q (Some l) st = ([], Raise RequestValidationError)) /\
  (forall s,
     search settings post (Some s) None st
     = search settings post (Some s) (Some 5%Z) st) /\
  (forall s l, (1 <= l <= 50)%Z ->
     search settings post (Some s) (Some l) st
     = search_body settings post s l st) /\
  (forall s l, (1 <= l <= 50)%Z ->
     opt_truthy st = true ->
     str_truthy (strip (shopify_storefront_token settings)) = true ->
     fst (search settings post (Some s) (Some l) st)
     = [build_request settings (normalize_domain st)
          (strip (shopify_storefront_token settings)) s l]).
Proof.
  assert (Hin : forall l, (1 <= l <= 50)%Z ->
                ((1 <=? l) && (l <=? 50))%Z = true).
  { intros l Hl. apply andb_true_iff. split; apply Z.leb_le; lia. }
  repeat split.
  - intros l Hl. unfold search. destruct q as [s|]; [|reflexivity].
    replace ((1 <=? l) && (l <=? 50))%Z with false; [reflexivity|].
    symmetry. apply andb_false_iff.
    destruct Hl; [left | right]; apply Z.leb_gt; lia.
  - intros s l Hl. unfold search. rewrite (Hin l Hl). reflexivity.
  - intros s l Hl Hst Ht. unfold search. rewrite (Hin l Hl).
    rewrite search_body_log. unfold search_shopify_products.
    rewrite Hst, Ht. reflexivity.
Qed.

End Routes.

(* ================================================================= *)
(** ** Concrete runs *)

Import Decimal.

(** C1.  A first gallery edge that has no [node] key makes the
    normalizer raise [KeyError], for the edge and for the whole answer,
    while a variant edge and a product edge without [node] are read as
    an empty node. *)
Theorem gallery_edge_without_node_raises :
  normalize_edge Samples.gallery_edge_without_node
    = Raise (KeyError (JStr (u "node"))) /\
  read_response
    {| status_code := 200; text := u "";
       json_body := Some (Samples.body_of [Samples.gallery_edge_without_node]) |}
    = Raise (KeyError (JStr (u "node"))) /\
  snd (search_shopify_products Samples.cfg
         (Samples.answers 200 ""
            (Some (Samples.body_of [Samples.gallery_edge_without_node])))
         (u "shoe") 5 None)
    = Raise (KeyError (JStr (u "node"))) /\
  normalize_edge Samples.variant_edge_without_node
    = Ok {| id := u "gid://shopify/Product/4"; title := u ""; handle := u "";
            url := None; price := None; image := None; imageAlt := None |} /\
  normalize_edge Samples.product_edge_without_node
    = Ok {| id := u ""; title := u ""; handle := u "";
            url := None; price := None; image := None; imageAlt := None |}.
Proof. repeat split; reflexivity. Qed.

Lemma normalize_edge_price_witness :
  normalize_edge Samples2.two_variants = Ok Samples2.two_variants_result /\
  normalize_edge Samples2.legacy_only = Ok Samples2.legacy_only_result /\
  normalize_edge Samples2.unpriced = Ok Samples2.unpriced_result /\
  normalize_edge Samples.bare = Ok Samples.bare_result /\
  (exists m, price Samples2.two_variants_result = Some m /\
             money_of_node (Samples.price_cad (JStr (u "1.00"))) m) /\
  (exists m, price Samples2.legacy_only_result = Some m /\
             money_of_node (Samples.price_cad (JStr (u "12.50"))) m) /\
  price Samples2.unpriced_result = None /\
  price Samples.bare_result = None /\
  scalar_field Samples2.two_variants_fields "id"
    (id Samples2.two_variants_result).
Proof.
  do 4 (split; [reflexivity|]).
  split; [|split; [|split; [|split]]].
  - destruct (normalize_edge_price Samples2.two_variants
                (r := Samples2.two_variants_result) eq_refl)
      as (ef & node & vs & He & Hn & Hvs & _ & Hfirst & _).
    cbv -[Decimal.decimal_float] in He. injection He as <-.
    cbv -[Decimal.decimal_float] in Hn. injection Hn as <-.
    cbv -[Decimal.decimal_float] in Hvs. injection Hvs as <-.
    destruct (Hfirst _ _ eq_refl) as (ff & v & Hff & Hv & Hp1 & _).
    cbv -[Decimal.decimal_float] in Hff. injection Hff as <-.
    cbv -[Decimal.decimal_float] in Hv. injection Hv as <-.
    exact (Hp1 _ _ eq_refl).
  - destruct (normalize_edge_price Samples2.legacy_only
                (r := Samples2.legacy_only_result) eq_refl)
      as (ef & node & vs & He & Hn & Hvs & _ & Hfirst & _).
    cbv -[Decimal.decimal_float] in He. injection He as <-.
    cbv -[Decimal.decimal_float] in Hn. injection Hn as <-.
    cbv -[Decimal.decimal_float] in Hvs. injection Hvs as <-.
    destruct (Hfirst _ _ eq_refl) as (ff & v & Hff & Hv & _ & Hp2).
    cbv -[Decimal.decimal_float] in Hff. injection Hff as <-.
    cbv -[Decimal.decimal_float] in Hv. injection Hv as <-.
    exact (proj1 (Hp2 I) _ _ eq_refl).
  - destruct (normalize_edge_price Samples2.unpriced
                (r := Samples2.unpriced_result) eq_refl)
      as (ef & node & vs & He & Hn & Hvs & _ & Hfirst & _).
    cbv -[Decimal.decimal_float] in He. injection He as <-.
    cbv -[Decimal.decimal_float] in Hn. injection Hn as <-.
    cbv -[Decimal.decimal_float] in Hvs. injection Hvs as <-.
    destruct (Hfirst _ _ eq_refl) as (ff & v & Hff & Hv & _ & Hp2).
    cbv -[Decimal.decimal_float] in Hff. injection Hff as <-.
    cbv -[Decimal.decimal_float] in Hv. injection Hv as <-.
    exact (proj2 (Hp2 I) I).
  - destruct (normalize_edge_price Samples.bare
                (r := Samples.bare_result) eq_refl)
      as (ef & node & vs & He & Hn & Hvs & Hempty & _).
    cbv -[Decimal.decimal_float] in He. injection He as <-.
    cbv -[Decimal.decimal_float] in Hn. injection Hn as <-.
    cbv -[Decimal.decimal_float] in Hvs. injection Hvs as <-.
    exact (Hempty eq_refl).
  - destruct (normalize_edge_price Samples2.two_variants
                (r := Samples2.two_variants_result) eq_refl)
      as (ef & node & vs & He & Hn & _ & _ & _ & Hid & _).
    cbv -[Decimal.decimal_float] in He. injection He as <-.
    cbv -[Decimal.decimal_float] in Hn. injection Hn as <-.
    exact Hid.
Defined.


Lemma token_required_despite_override_witness :
  forallb is_space (shopify_storefront_token Samples.cfg_blank_token) = true /\
  opt_truthy (Some (u "other.myshopify.com")) = true /\
  search_shopify_products Samples.cfg_blank_token
    (Samples.answers 200 "" (Some (Samples.body_of [])))
    (u "shoe") 5 (Some (u "other.myshopify.com"))
  = ([], Raise (HTTPException 500
       (JStr (u "Missing SHOPIFY_STOREFRONT_TOKEN. Set it in your .env.")))).
Proof.
  split; [reflexivity|]. split; [reflexivity|].
  exact (proj1 (@token_required_despite_override _ Samples.cfg_blank_token
                  (Samples.answers 200 "" (Some (Samples.body_of [])))
                  (u "shoe") 5 (Some (u "other.myshopify.com")) eq_refl)
               eq_refl).
Defined.

Lemma num_is_clamped_limit_witness :
  In (build_request Samples.cfg (u "example.myshopify.com") (u "shpat_1")
        (u "shoe") 99)
     (fst (search_shopify_products Samples.cfg
             (Samples.answers 200 "" (Some (Samples.body_of [])))
             (u "shoe") 99 None)) /\
  num_variable (build_request Samples.cfg (u "example.myshopify.com")
                  (u "shpat_1") (u "shoe") 99)
  = Ok (JInt 50).
Proof.
  split; [left; reflexivity|].
  exact (proj1 (@num_is_clamped_limit _ Samples.cfg
                  (Samples.answers 200 "" (Some (Samples.body_of [])))
                  (u "shoe") 99 None _ (or_introl eq_refl))).
Defined.

(** Errors are raised on other answers too: a 200 whose body is not
    JSON, a 200 whose [data] is null, a 200 with a mispriced edge; and
    the GraphQL error is raised for an [errors] entry that is no array. *)
Lemma errors_raised_on_other_answers :
  snd (search_shopify_products Samples.cfg
         (Samples.answers 200 "<html>" None) (u "shoe") 5 None)
  = Raise JSONDecodeError /\
  snd (search_shopify_products Samples.cfg
         (Samples.answers 200 "" (Some (JObj [(u "data", JNull)])))
         (u "shoe") 5 None)
  = Raise AttributeError /\
  snd (search_shopify_products Samples.cfg
         (Samples.answers 200 ""
            (Some (Samples.body_of [Samples.mispriced])))
         (u "shoe") 5 None)
  = Raise ValueError /\
  snd (search_shopify_products Samples.cfg
         (Samples.answers 200 "" (Some (JObj [(u "errors", JNull)])))
         (u "shoe") 5 None)
  = Raise (HTTPException 502
      (obj2 "message" (JStr (u "Shopify GraphQL error")) "error" JNull)).
Proof. repeat split; reflexivity. Qed.

Lemma upstream_errors_are_raised_witness :
  (* HTTP 500 with a JSON body *)
  snd (search_shopify_products Samples.cfg
         (Samples.answers 500 "{}" (Some (JObj []))) (u "shoe") 5 None)
  = Raise (HTTPException 502
      (obj2 "message" (JStr (u "Shopify request failed")) "error" (JObj []))) /\
  (* HTTP 500 with a body that is not JSON *)
  snd (search_shopify_products Samples.cfg
         (Samples.answers 500 "Bad gateway" None) (u "shoe") 5 None)
  = Raise (HTTPException 502
      (obj2 "message" (JStr (u "Shopify request failed"))
            "error" (JStr (u "Bad gateway")))) /\
  (* HTTP 200 with GraphQL errors *)
  snd (search_shopify_products Samples.cfg
         (Samples.answers 200 ""
            (Some (JObj [(u "errors", Samples.graphql_errors)])))
         (u "shoe") 5 None)
  = Raise (HTTPException 502
      (obj2 "message" (JStr (u "Shopify GraphQL error"))
            "error" Samples.graphql_errors)) /\
  (* a success: HTTP 200, an object without errors *)
  (snd (search_shopify_products Samples.cfg
          (Samples.answers 200 "" (Some (Samples.body_of [])))
          (u "shoe") 5 None) = Ok [] /\
   exists fields,
     Some (Samples.body_of []) = Some (JObj fields) /\
     assoc (u "errors") fields = None).
Proof.
  split; [|split; [|split; [|split; [reflexivity|]]]].
  - refine (proj1 (@upstream_errors_are_raised _ Samples.cfg
              (Samples.answers 500 "{}" (Some (JObj []))) (u "shoe") 5 None
              _ _ eq_refl eq_refl) _).
    discriminate.
  - refine (proj1 (@upstream_errors_are_raised _ Samples.cfg
              (Samples.answers 500 "Bad gateway" None) (u "shoe") 5 None
              _ _ eq_refl eq_refl) _).
    discriminate.
  - exact (proj1 (proj2 (@upstream_errors_are_raised _ Samples.cfg
              (Samples.answers 200 ""
                 (Some (JObj [(u "errors", Samples.graphql_errors)])))
              (u "shoe") 5 None _ _ eq_refl eq_refl))
             _ _ eq_refl eq_refl eq_refl).
  - exact (proj2 (proj2 (proj2 (proj2 (@upstream_errors_are_raised _
              Samples.cfg
              (Samples.answers 200 "" (Some (Samples.body_of [])))
              (u "shoe") 5 None _ _ eq_refl eq_refl))) [] eq_refl)).
Defined.



(** The route accepts an empty [q]: the search runs and answers. *)
Lemma search_accepts_empty_q :
  search Samples.cfg (Samples.answers 200 "" (Some (Samples.body_of [])))
    (Some (u "")) None None
  = ([build_request Samples.cfg (u "example.myshopify.com") (u "shpat_1")
        (u "") 5],
     Ok {| store := u "example.myshopify.com"; query := u ""; count := 0;
           results := [] |}).
Proof. reflexivity. Qed.

Lemma search_validates_at_boundary_witness :
  search Samples.cfg_bad_domain
    (Samples.answers 200 "" (Some (Samples.body_of [])))
    (Some (u "shoe")) (Some 0%Z) (Some (u "https://other.myshopify.com/"))
  = ([], Raise RequestValidationError) /\
  search Samples.cfg_bad_domain
    (Samples.answers 200 "" (Some (Samples.body_of [])))
    (Some (u "shoe")) (Some 51%Z) (Some (u "https://other.myshopify.com/"))
  = ([], Raise RequestValidationError) /\
  fst (search Samples.cfg_bad_domain
         (Samples.answers 200 "" (Some (Samples.body_of [])))
         (Some (u "")) (Some 50%Z) (Some (u "https://other.myshopify.com/")))
  = [build_request Samples.cfg_bad_domain (u "other.myshopify.com")
       (u "shpat_1") (u "") 50].
Proof.
  pose proof (@search_validates_at_boundary _ Samples.cfg_bad_domain
                (Samples.answers 200 "" (Some (Samples.body_of [])))
                (Some (u "shoe")) (Some (u "https://other.myshopify.com/")))
    as (_ & Hout & _ & _ & Hover).
  split; [|split].
  - apply Hout. left. reflexivity.
  - apply Hout. right. reflexivity.
  - apply (Hover (u "") 50%Z); [split; discriminate | reflexivity | reflexivity].
Defined.

(* ================================================================= *)
(** * Further properties *)

(** ** The configuration resolver *)

Lemma lstrip_by_suffix (p : N -> bool) (s : pystr) :
  exists pre, s = pre ++ lstrip_by p s.
Proof.
  induction s as [|c s (pre & IH)]; simpl; [exists []; reflexivity|].
  destruct (p c).
  - exists (c :: pre). simpl. f_equal. exact IH.
  - exists []. reflexivity.
Qed.

Lemma rstrip_by_prefix (p : N -> bool) (s : pystr) :
  exists suf, s = rstrip_by p s ++ suf.
Proof.
  unfold rstrip_by. destruct (lstrip_by_suffix p (rev s)) as (pre & E).
  exists (rev pre). rewrite <- rev_app_distr, <- E, rev_involutive.
  reflexivity.
Qed.

Lemma infix_of_refl (s : pystr) : infix_of s s.
Proof. exists [], []. rewrite app_nil_r. reflexivity. Qed.

Lemma infix_of_trans (a b c : pystr) :
  infix_of a b -> infix_of b c -> infix_of a c.
Proof.
  intros (p1 & s1 & ->) (p2 & s2 & ->).
  exists (p2 ++ p1), (s1 ++ s2). rewrite <- !app_assoc. reflexivity.
Qed.

Lemma infix_of_strip_by (p : N -> bool) (s : pystr) :
  infix_of (strip_by p s) s.
Proof.
  unfold strip_by.
  destruct (lstrip_by_suffix p s) as (pre & E).
  destruct (rstrip_by_prefix p (lstrip_by p s)) as (suf & E').
  exists pre, suf. rewrite <- E'. exact E.
Qed.

Lemma infix_of_skipn (n : nat) (s : pystr) : infix_of (skipn n s) s.
Proof.
  exists (firstn n s), []. rewrite app_nil_r, firstn_skipn. reflexivity.
Qed.

Lemma infix_of_length (t s : pystr) :
  infix_of t s -> (List.length t <= List.length s)%nat.
Proof. intros (pre & suf & ->). rewrite !length_app. lia. Qed.

Lemma normalize_domain_some (s : pystr) :
  normalize_domain (Some s) =
  let d := strip s in
  let d := if startswith (u "http://") d
           then skipn (List.length (u "http://")) d else d in
  let d := if startswith (u "https://") d
           then skipn (List.length (u "https://")) d else d in
  strip_chars (u "/") (strip d).
Proof. destruct s; reflexivity. Qed.

(** X1.  The normalized domain is a contiguous part of the given string:
    [normalize_domain] only removes characters at the two ends, it never
    adds, replaces or reorders any, and its outcome is never longer than
    its input. *)
Theorem normalize_domain_infix (s : pystr) :
  infix_of (normalize_domain (Some s)) s /\
  (List.length (normalize_domain (Some s)) <= List.length s)%nat.
Proof.
  assert (H : infix_of (normalize_domain (Some s)) s).
  { rewrite normalize_domain_some. cbv zeta.
    eapply infix_of_trans; [apply infix_of_strip_by|].
    eapply infix_of_trans; [apply infix_of_strip_by|].
    eapply infix_of_trans;
      [destruct (startswith (u "https://") _);
       [apply infix_of_skipn | apply infix_of_refl]|].
    eapply infix_of_trans;
      [destruct (startswith (u "http://") _);
       [apply infix_of_skipn | apply infix_of_refl]|].
    apply infix_of_strip_by. }
  split; [exact H | apply infix_of_length, H].
Qed.

Lemma strip_by_clean (p : N -> bool) (s : pystr) :
  match s, rev s with
  | c :: _, c' :: _ => p c = false /\ p c' = false
  | _, _ => True
  end ->
  strip_by p s = s.
Proof.
  unfold strip_by, rstrip_by. destruct s as [|c r]; [reflexivity|].
  destruct (rev (c :: r)) as [|c' t] eqn:E.
  - apply (f_equal (@List.length N)) in E. rewrite length_rev in E.
    discriminate E.
  - intros [Hc Hc']. rewrite lstrip_by_fix by exact Hc.
    rewrite E, lstrip_by_fix by exact Hc'.
    rewrite <- E. apply rev_involutive.
Qed.

Lemma clean_ends_strip (s : pystr) :
  clean_ends s = true -> strip s = s /\ strip_chars (u "/") s = s.
Proof.
  unfold clean_ends, strip, strip_chars, is_trimmed_char. intros H.
  split; apply strip_by_clean;
    destruct s as [|c r]; try exact I;
    destruct (rev (c :: r)) as [|c' t]; try exact I;
    apply andb_true_iff in H as [H1 H2];
    apply negb_true_iff, orb_false_iff in H1 as [H1 H1'];
    apply negb_true_iff, orb_false_iff in H2 as [H2 H2'];
    simpl; rewrite ?H1', ?H2'; auto.
Qed.

Lemma substring_in_char (c : N) (s : pystr) :
  substring_in [c] s = true <-> In c s.
Proof.
  induction s as [|b s IH]; simpl; [split; [discriminate | tauto]|].
  rewrite orb_true_iff, andb_true_r, N.eqb_eq, IH.
  split; intros [H|H]; auto.
Qed.

(** X2.  A domain that is already clean (no whitespace or [/] at either
    end, no [http://] or [https://] in front) is returned unchanged by
    [normalize_domain]; and when it contains a dot and a token is
    configured, [ensure_config_ok] returns it unchanged. *)
Theorem clean_domain_unchanged (settings : Settings) :
  let s := shopify_store_domain settings in
  clean_ends s = true ->
  startswith (u "http://") s = false ->
  startswith (u "https://") s = false ->
  normalize_domain (Some s) = s /\
  (In 46%N s -> shopify_storefront_token settings <> [] ->
   ensure_config_ok settings = inr s).
Proof.
  intros s Hc H1 H2.
  destruct (clean_ends_strip s Hc) as [Hs Hsl].
  assert (Hn : normalize_domain (Some s) = s).
  { rewrite normalize_domain_some. cbv zeta. rewrite Hs, H1, H2, Hs.
    exact Hsl. }
  split; [exact Hn|]. intros Hdot Htok.
  unfold ensure_config_ok. fold s. rewrite Hn.
  apply (substring_in_char 46%N) in Hdot.
  change (u ".") with [46%N]. rewrite Hdot.
  destruct s as [|c r]; [discriminate Hdot|].
  destruct (shopify_storefront_token settings); [congruence | reflexivity].
Qed.

Lemma clean_domain_unchanged_witness :
  normalize_domain (Some (u "example.myshopify.com"))
    = u "example.myshopify.com" /\
  ensure_config_ok Samples.cfg = inr (u "example.myshopify.com").
Proof.
  destruct (clean_domain_unchanged Samples.cfg eq_refl eq_refl eq_refl)
    as [Hn He].
  split; [exact Hn|].
  apply He; [|discriminate].
  do 7 right. left. reflexivity.
Defined.

Lemma ensure_config_ok_cases (settings : Settings) :
  let d := normalize_domain (Some (shopify_store_domain settings)) in
  ((d = [] \/ ~ In 46%N d) /\
   ensure_config_ok settings = inl InvalidStoreDomain) \/
  (d <> [] /\ In 46%N d /\ shopify_storefront_token settings = [] /\
   ensure_config_ok settings = inl MissingStorefrontToken) \/
  (d <> [] /\ In 46%N d /\ shopify_storefront_token settings <> [] /\
   ensure_config_ok settings = inr d).
Proof.
  intros d. unfold ensure_config_ok. fold d.
  pose proof (substring_in_char 46%N d) as Hdot.
  change [46%N] with (u ".") in Hdot.
  destruct (substring_in (u ".") d) eqn:Es.
  - assert (Hin : In 46%N d) by (apply Hdot; reflexivity).
    destruct d as [|c r]; [destruct Hin|].
    cbn [str_truthy negb orb].
    right. destruct (shopify_storefront_token settings) as [|t ts];
      cbn [str_truthy negb].
    + left. repeat split; auto; discriminate.
    + right. repeat split; auto; discriminate.
  - left. rewrite orb_true_r. split; [|reflexivity].
    right. intros H. apply Hdot in H. discriminate H.
Qed.

(** X3.  [ensure_config_ok] returns a domain exactly when the normalized
    configured domain is non-empty and contains a dot and the token is
    non-empty, and what it returns is that normalized domain, which
    neither starts nor ends with [/]; an invalid domain is reported
    before a missing token. *)
Theorem ensure_config_ok_spec (settings : Settings) :
  let d := normalize_domain (Some (shopify_store_domain settings)) in
  (forall d', ensure_config_ok settings = inr d' <->
     d' = d /\ d <> [] /\ In 46%N d /\
     shopify_storefront_token settings <> []) /\
  (ensure_config_ok settings = inl InvalidStoreDomain <->
     d = [] \/ ~ In 46%N d) /\
  (ensure_config_ok settings = inl MissingStorefrontToken <->
     d <> [] /\ In 46%N d /\ shopify_storefront_token settings = []) /\
  (forall d', ensure_config_ok settings = inr d' ->
     (forall r, d' <> 47%N :: r) /\ (forall r, d' <> r ++ [47%N])).
Proof.
  intros d.
  assert (Hsl : (forall r, d <> 47%N :: r) /\ (forall r, d <> r ++ [47%N])).
  { split; intros r; [apply strip_chars_slash_head
                     | apply strip_chars_slash_last]. }
  destruct (ensure_config_ok_cases settings)
    as [(Hc & E) | [(Hd & Hi & Ht & E) | (Hd & Hi & Ht & E)]];
    fold d in Hc || fold d in Hd, Hi; rewrite E.
  - split; [|split; [|split]].
    + intros d'. split; [discriminate|]. tauto.
    + tauto.
    + split; [discriminate|]. tauto.
    + discriminate.
  - split; [|split; [|split]].
    + intros d'. split; [discriminate|]. tauto.
    + split; [discriminate|]. tauto.
    + tauto.
    + discriminate.
  - split; [|split; [|split]].
    + intros d'. split; [intros [= <-]; auto|].
      intros (-> & _). reflexivity.
    + split; [discriminate|]. tauto.
    + split; [discriminate|]. tauto.
    + intros d' [= <-]. exact Hsl.
Qed.

Lemma ensure_config_ok_spec_witness :
  ensure_config_ok Samples.cfg = inr (u "example.myshopify.com") /\
  ensure_config_ok Samples.cfg_bad_domain = inl InvalidStoreDomain /\
  ensure_config_ok default_settings = inl MissingStorefrontToken.
Proof.
  split; [|split].
  - apply (proj1 (ensure_config_ok_spec Samples.cfg)).
    split; [reflexivity|]. split; [discriminate|].
    split; [|discriminate]. do 7 right. left. reflexivity.
  - apply (proj1 (proj2 (ensure_config_ok_spec Samples.cfg_bad_domain))).
    right. cbv. intuition discriminate.
  - apply (proj1 (proj2 (proj2 (ensure_config_ok_spec default_settings)))).
    split; [discriminate|]. split; [|reflexivity].
    do 7 right. left. reflexivity.
Defined.

(** ** The client, further *)

Section ClientFurther.

Context {PF : PyFloat}.

Variable settings : Settings.
Variable post : Request -> result Response.
Variable query : pystr.
Variable limit : Z.
Variable store_domain : option pystr.

Local Abbreviation outcome :=
  (search_shopify_products settings post query limit store_domain).

Local Abbreviation token := (shopify_storefront_token settings).

Lemma strip_truthy (s : pystr) :
  str_truthy (strip s) = negb (forallb is_space s).
Proof.
  pose proof (strip_by_empty is_space s) as H. fold (strip s) in H.
  destruct (strip s) as [|c r]; destruct (forallb is_space s); simpl;
    try reflexivity.
  - destruct H as [H _]. discriminate (H eq_refl).
  - destruct H as [_ H]. discriminate (H eq_refl).
Qed.

(** X4.  Without a store override, a call fails before anything is
    posted in three ways: an invalid configured domain raises the
    [RuntimeError] of the domain, whatever the token; a valid domain
    with an empty token raises the [RuntimeError] of the token; a valid
    domain with a non-empty token made of whitespace only passes
    [ensure_config_ok] and raises the HTTP 500 error.  Otherwise exactly
    one request is posted, to the normalized configured domain. *)
Theorem config_errors_without_override :
  opt_truthy store_domain = false ->
  let d := normalize_domain (Some (shopify_store_domain settings)) in
  (d = [] \/ ~ In 46%N d ->
   outcome = ([], Raise (RuntimeError InvalidStoreDomain))) /\
  (d <> [] -> In 46%N d -> token = [] ->
   outcome = ([], Raise (RuntimeError MissingStorefrontToken))) /\
  (d <> [] -> In 46%N d -> token <> [] -> forallb is_space token = true ->
   ensure_config_ok settings = inr d /\
   outcome = ([], Raise (HTTPException 500
     (JStr (u "Missing SHOPIFY_STOREFRONT_TOKEN. Set it in your .env."))))) /\
  (d <> [] -> In 46%N d -> forallb is_space token = false ->
   fst outcome = [build_request settings d (strip token) query limit]).
Proof.
  intros Hst d. unfold search_shopify_products. rewrite Hst.
  rewrite strip_truthy.
  destruct (ensure_config_ok_cases settings)
    as [(Hc & E) | [(Hd & Hi & Ht & E) | (Hd & Hi & Ht & E)]];
    fold d in Hc || fold d in Hd, Hi; rewrite E.
  - repeat split; try tauto.
  - repeat split; try tauto; try congruence.
    intros _ _ Hf. rewrite Ht in Hf. discriminate Hf.
  - split; [tauto|]. split; [congruence|]. split.
    + intros _ _ _ Hf. rewrite Hf. split; reflexivity.
    + intros _ _ Hf. rewrite Hf. reflexivity.
Qed.

(** X5.  Every request the function posts is the only one it posts; its
    document is the fixed [GRAPHQL_QUERY] whatever the search text, which
    travels verbatim as the variable [q]; its token header is the
    configured token trimmed, non-empty and without whitespace at either
    end; and its URL is
    [https://<domain>/api/<version>/graphql.json] for the normalized
    override or, without override, the domain [ensure_config_ok]
    returned. *)
Theorem posted_request_shape (req : Request) :
  In req (fst outcome) ->
  fst outcome = [req] /\
  py_getitem (req_json req) (u "query") = Ok (JStr GRAPHQL_QUERY) /\
  bind (py_getitem (req_json req) (u "variables"))
       (fun v => py_getitem v (u "q")) = Ok (JStr query) /\
  req_headers req =
    [(u "Content-Type", u "application/json");
     (u "X-Shopify-Storefront-Access-Token", strip token)] /\
  strip token <> [] /\
  (forall c r, strip token = c :: r -> is_space c = false) /\
  (forall c r, strip token = r ++ [c] -> is_space c = false) /\
  exists domain,
    req_url req = u "https://" ++ domain ++ u "/api/"
                  ++ shopify_api_version settings ++ u "/graphql.json" /\
    (if opt_truthy store_domain
     then domain = normalize_domain store_domain
     else ensure_config_ok settings = inr domain).
Proof.
  intros Hin.
  assert (Hd : exists domain,
    req = build_request settings domain (strip token) query limit /\
    str_truthy (strip token) = true /\
    fst outcome = [req] /\
    (if opt_truthy store_domain
     then domain = normalize_domain store_domain
     else ensure_config_ok settings = inr domain)).
  { revert Hin. unfold search_shopify_products.
    destruct (opt_truthy store_domain).
    - destruct (str_truthy (strip token)) eqn:Et; simpl; [|tauto].
      intros [<- | []]. eauto.
    - destruct (ensure_config_ok settings) as [e|d]; simpl; [tauto|].
      destruct (str_truthy (strip token)) eqn:Et; simpl; [|tauto].
      intros [<- | []]. eauto. }
  destruct Hd as (domain & -> & Ht & Hlog & Hdom).
  split; [exact Hlog|]. split; [reflexivity|]. split; [reflexivity|].
  split; [reflexivity|].
  split; [intros E; rewrite E in Ht; discriminate|].
  split; [|split].
  - intros c r E. pose proof (strip_by_head is_space token) as H.
    fold (strip token) in H. rewrite E in H. exact H.
  - intros c r E. eapply strip_by_last. exact E.
  - exists domain. split; [reflexivity | exact Hdom].
Qed.

(** X6.  When the upstream call itself raises (a timeout, a transport
    failure), the function has posted that one request, does not try
    again, and raises the same exception. *)
Theorem upstream_failure_propagates (req : Request) (e : exn) :
  In req (fst outcome) ->
  post req = Raise e ->
  outcome = ([req], Raise e).
Proof.
  intros Hin Hp.
  destruct (posted_request settings post query limit store_domain req Hin)
    as (_ & _ & _ & _ & Hlog & Hout).
  rewrite Hp in Hout. simpl in Hout.
  destruct outcome as [log out]. simpl in *. congruence.
Qed.

End ClientFurther.

(** ** Answers and routes, further *)

Section RoutesFurther.

Context {PF : PyFloat}.

Variable settings : Settings.
Variable post : Request -> result Response.

Local Abbreviation configured :=
  (normalize_domain (Some (shopify_store_domain settings))).

Lemma answered_request (q : pystr) (l : Z) (st : option pystr)
  (req : Request) (resp : Response) :
  In req (fst (search_shopify_products settings post q l st)) ->
  post req = Ok resp ->
  search_shopify_products settings post q l st = ([req], read_response resp).
Proof.
  intros Hin Hp.
  destruct (posted_request settings post q l st req Hin)
    as (_ & _ & _ & _ & Hlog & Hout).
  rewrite Hp in Hout. simpl in Hout.
  destruct (search_shopify_products settings post q l st) as [log out].
  simpl in *. congruence.
Qed.

Lemma search_in_range (q : pystr) (l : Z) (st : option pystr) :
  (1 <= l <= 50)%Z ->
  search settings post (Some q) (Some l) st = search_body settings post q l st.
Proof.
  intros Hl. unfold search.
  replace ((1 <=? l) && (l <=? 50))%Z with true; [reflexivity|].
  symmetry. apply andb_true_iff. split; apply Z.leb_le; lia.
Qed.

(** X7.  A 200 answer whose body does not parse, or parses to anything
    but a JSON object, never gives a success: the call raises, and what
    it raises is not one of its own HTTP errors. *)
Theorem non_object_body_raises (q : pystr) (l : Z) (st : option pystr)
  (req : Request) (resp : Response) :
  In req (fst (search_shopify_products settings post q l st)) ->
  post req = Ok resp ->
  status_code resp = 200%Z ->
  (forall fields, json_body resp <> Some (JObj fields)) ->
  exists x,
    snd (search_shopify_products settings post q l st) = Raise x /\
    forall c d, x <> HTTPException c d.
Proof.
  intros Hin Hp Hs Hb. rewrite (answered_request _ _ _ Hin Hp). simpl.
  unfold read_response, resp_json. rewrite Hs. simpl.
  destruct (json_body resp) as [data|]; simpl.
  2:{ eexists; split; [reflexivity | discriminate]. }
  destruct data as [| | | |s|items|fields]; simpl;
    try (eexists; split; [reflexivity | discriminate]).
  - destruct (substring_in (u "errors") s); simpl;
      eexists; split; try reflexivity; discriminate.
  - destruct (existsb _ items); simpl;
      eexists; split; try reflexivity; discriminate.
  - destruct (Hb fields eq_refl).
Qed.




(** X10.  A 200 answer that is an object without [errors] in which
    [data], or [products] inside it, or [edges] inside that, is missing
    is a success with no results and a count of 0. *)
Theorem missing_levels_give_empty_success
  (q : pystr) (l : Z) (st : option pystr)
  (req : Request) (resp : Response) (fields : list (pystr * json)) :
  (1 <= l <= 50)%Z ->
  In req (fst (search_shopify_products settings post q l st)) ->
  post req = Ok resp ->
  status_code resp = 200%Z ->
  json_body resp = Some (JObj fields) ->
  assoc (u "errors") fields = None ->
  (assoc (u "data") fields = None \/
   exists d, assoc (u "data") fields = Some (JObj d) /\
     (assoc (u "products") d = None \/
      exists ps, assoc (u "products") d = Some (JObj ps) /\
                 assoc (u "edges") ps = None)) ->
  search settings post (Some q) (Some l) st
  = ([req],
     Ok {| store := if opt_truthy st then normalize_domain st
                    else configured;
           query := q; count := 0; results := [] |}).
Proof.
  intros Hl Hin Hp Hs Hb He Habs.
  rewrite (search_in_range _ _ Hl). unfold search_body.
  rewrite (answered_request _ _ _ Hin Hp).
  unfold read_response, resp_json. rewrite Hs, Hb. simpl.
  rewrite He. simpl. rewrite (edges_of_absent fields Habs). reflexivity.
Qed.

(** X11.  In every response of the route, the search text echoed is the
    [q] received, and the store echoed is the host of the one request
    that was posted: the URL queried is
    [https://<store>/api/<version>/graphql.json]. *)
Theorem store_echo_is_queried_host
  (q : option pystr) (limit : option Z) (st : option pystr)
  (log : list Request) (resp : SearchResponse) :
  search settings post q limit st = (log, Ok resp) ->
  exists req,
    log = [req] /\
    q = Some (query resp) /\
    req_url req = u "https://" ++ store resp ++ u "/api/"
                  ++ shopify_api_version settings ++ u "/graphql.json".
Proof.
  intros H.
  assert (Hb : exists q' l, q = Some q' /\
                 search_body settings post q' l st = (log, Ok resp)).
  { unfold search in H. destruct q as [q'|]; [|discriminate].
    destruct limit as [l|]; [|eauto].
    destruct ((1 <=? l) && (l <=? 50))%Z; [eauto|discriminate]. }
  destruct Hb as (q' & l & -> & Hb). clear H.
  unfold search_body in Hb.
  destruct (search_shopify_products settings post q' l st)
    as [log' out] eqn:Es.
  destruct out as [rs|]; simpl in Hb; [|discriminate].
  injection Hb as <- <-. simpl.
  revert Es. unfold search_shopify_products.
  destruct (opt_truthy st).
  - destruct (negb _); [discriminate|]. intros [= <- _]. eauto.
  - destruct (ensure_config_ok_cases settings)
      as [(_ & E) | [(_ & _ & _ & E) | (_ & _ & _ & E)]];
      rewrite E; try discriminate.
    destruct (negb _); [discriminate|]. intros [= <- _]. eauto.
Qed.

(** X12.  [_config] reveals of the token only whether it is empty:
    settings that agree on domain and API version and whose tokens are
    both empty or both non-empty give the same answer, and
    [token_present] is true exactly for a non-empty token. *)
Theorem config_reveals_only_token_presence (s1 s2 : Settings) :
  (shopify_store_domain s1 = shopify_store_domain s2 ->
   shopify_api_version s1 = shopify_api_version s2 ->
   (shopify_storefront_token s1 = [] <-> shopify_storefront_token s2 = []) ->
   _config s1 = _config s2) /\
  (py_getitem (_config s1) (u "token_present") = Ok (JBool true)
   <-> shopify_storefront_token s1 <> []).
Proof.
  split.
  - intros Hd Hv Ht. unfold _config. rewrite Hd, Hv.
    destruct (shopify_storefront_token s1), (shopify_storefront_token s2);
      try reflexivity.
    + destruct Ht as [Ht _]. discriminate (Ht eq_refl).
    + destruct Ht as [_ Ht]. discriminate (Ht eq_refl).
  - unfold _config. simpl.
    destruct (shopify_storefront_token s1); simpl;
      split; congruence.
Qed.

(** X13.  The startup hook prints at most one line, and it prints a
    warning exactly when a search on the default store would raise the
    configuration [RuntimeError]; the warning tells which of the two
    checks failed. *)
Theorem startup_warns_iff_default_search_fails
  (q : pystr) (l : Z) (st : option pystr) :
  opt_truthy st = false ->
  (List.length (_startup_check settings) <= 1)%nat /\
  (_startup_check settings = [] <->
   exists d, ensure_config_ok settings = inr d) /\
  (forall e,
     _startup_check settings
       = [u "[CONFIG WARNING] " ++ config_error_message e] <->
     search_shopify_products settings post q l st
       = ([], Raise (RuntimeError e))).
Proof.
  intros Hst. unfold _startup_check, search_shopify_products. rewrite Hst.
  destruct (ensure_config_ok settings) as [e'|d]; simpl.
  - split; [lia|]. split.
    + split; [discriminate | intros (d & H); discriminate].
    + intros e. split.
      * intros H. destruct e, e'; try reflexivity; discriminate H.
      * intros [= ->]. reflexivity.
  - split; [lia|]. split.
    + split; eauto.
    + intros e. split; [discriminate|].
      destruct (negb _); discriminate.
Qed.

End RoutesFurther.

(** ** The normalizer, further *)

Section NormalizerFurther.

Context {PF : PyFloat}.

(** X14.  The [url] of a result is the node's [onlineStoreUrl] as it is:
    the string under the key, unset when the key is absent or null. *)
Theorem url_is_passed_through (edge : json) (r : ProductResult) :
  normalize_edge edge = Ok r ->
  exists node,
    py_get edge (u "node") (JObj []) = Ok (JObj node) /\
    match assoc (u "onlineStoreUrl") node with
    | None | Some JNull => url r = None
    | Some (JStr s) => url r = Some s
    | Some _ => False
    end.
Proof.
  intros H.
  apply normalize_edge_ok in H
    as (node & pn & img & Hn & _ & _ & _ & _ & _ & _ & Hu & _).
  exists node. split; [exact Hn|].
  unfold optional_field, dict_get in Hu.
  destruct (assoc (u "onlineStoreUrl") node) as [[]|]; auto.
Qed.

(** X15.  A level that is present but not an object is not tolerated the
    way a missing level is: an edge that is not an object, a [node], a
    [variants] or (once the price part went through) an [images] value
    that is null or of another type makes the normalizer raise
    [AttributeError]. *)
Theorem non_object_levels_raise (edge : json) :
  ((forall fields, edge <> JObj fields) ->
   normalize_edge edge = Raise AttributeError) /\
  (forall ef, edge = JObj ef ->
     (forall nf, dict_get ef (u "node") (JObj []) <> JObj nf) ->
     normalize_edge edge = Raise AttributeError) /\
  (forall ef nf, edge = JObj ef ->
     dict_get ef (u "node") (JObj []) = JObj nf ->
     (forall vs, dict_get nf (u "variants") (JObj []) <> JObj vs) ->
     normalize_edge edge = Raise AttributeError) /\
  (forall ef nf pn, edge = JObj ef ->
     dict_get ef (u "node") (JObj []) = JObj nf ->
     price_node_of (JObj nf) = Ok pn ->
     (forall im, dict_get nf (u "images") (JObj []) <> JObj im) ->
     normalize_edge edge = Raise AttributeError).
Proof.
  unfold normalize_edge. split; [|split; [|split]].
  - intros H. destruct edge; try reflexivity. destruct (H fields eq_refl).
  - intros ef -> H. cbn [py_get bind].
    destruct (dict_get ef (u "node") (JObj [])); try reflexivity.
    destruct (H fields eq_refl).
  - intros ef nf -> Hn H. cbn [py_get bind]. rewrite Hn.
    unfold price_node_of, variant_edges_of. cbn [py_get bind].
    destruct (dict_get nf (u "variants") (JObj [])); try reflexivity.
    destruct (H fields eq_refl).
  - intros ef nf pn -> Hn Hp H. cbn [py_get bind]. rewrite Hn, Hp.
    cbn [bind]. unfold img_node_of, featured_of, img_edges_of.
    cbn [py_get bind].
    destruct (dict_get nf (u "images") (JObj [])); try reflexivity.
    destruct (H fields eq_refl).
Qed.

End NormalizerFurther.

(** ** Concrete runs, further *)

Lemma config_errors_without_override_witness :
  ensure_config_ok Samples.cfg_blank_token = inr (u "example.myshopify.com") /\
  search_shopify_products Samples.cfg_blank_token
    (Samples.answers 200 "" (Some (Samples.body_of []))) (u "shoe") 5 None
  = ([], Raise (HTTPException 500
       (JStr (u "Missing SHOPIFY_STOREFRONT_TOKEN. Set it in your .env.")))).
Proof.
  destruct (@config_errors_without_override _ Samples.cfg_blank_token
              (Samples.answers 200 "" (Some (Samples.body_of [])))
              (u "shoe") 5 None eq_refl) as (_ & _ & H & _).
  apply H; [discriminate | | discriminate | reflexivity].
  vm_compute. do 7 right. left. reflexivity.
Defined.

Lemma posted_request_shape_witness :
  req_headers
    (build_request Samples.cfg (u "example.myshopify.com") (u "shpat_1")
       (u "shoe") 5)
  = [(u "Content-Type", u "application/json");
     (u "X-Shopify-Storefront-Access-Token", u "shpat_1")].
Proof.
  exact (proj1 (proj2 (proj2 (proj2
    (@posted_request_shape _ Samples.cfg
       (Samples.answers 200 "" (Some (Samples.body_of [])))
       (u "shoe") 5 None
       (build_request Samples.cfg (u "example.myshopify.com") (u "shpat_1")
          (u "shoe") 5)
       (or_introl eq_refl)))))).
Defined.

Lemma upstream_failure_propagates_witness :
  search_shopify_products Samples.cfg (fun _ => Raise TransportError)
    (u "shoe") 5 None
  = ([build_request Samples.cfg (u "example.myshopify.com") (u "shpat_1")
        (u "shoe") 5],
     Raise TransportError).
Proof.
  exact (@upstream_failure_propagates _ Samples.cfg
           (fun _ => Raise TransportError) (u "shoe") 5 None
           _ TransportError (or_introl eq_refl) eq_refl).
Defined.

Lemma non_object_body_raises_witness :
  exists x,
    snd (search_shopify_products Samples.cfg
           (Samples.answers 200 "<html>" None) (u "shoe") 5 None)
    = Raise x /\
    forall c d, x <> HTTPException c d.
Proof.
  refine (@non_object_body_raises _ Samples.cfg
            (Samples.answers 200 "<html>" None) (u "shoe") 5 None
            _ _ (or_introl eq_refl) eq_refl eq_refl _).
  intros fields. discriminate.
Defined.



Lemma missing_levels_give_empty_success_witness :
  search Samples.cfg (Samples.answers 200 "{}" (Some (JObj [])))
    (Some (u "shoe")) (Some 5%Z) None
  = ([build_request Samples.cfg (u "example.myshopify.com") (u "shpat_1")
        (u "shoe") 5],
     Ok {| store := u "example.myshopify.com"; query := u "shoe";
           count := 0; results := [] |}).
Proof.
  refine (@missing_levels_give_empty_success _ Samples.cfg
            (Samples.answers 200 "{}" (Some (JObj [])))
            (u "shoe") 5%Z None _ _ [] _ (or_introl eq_refl)
            eq_refl eq_refl eq_refl eq_refl (or_introl eq_refl)).
  split; discriminate.
Defined.

Lemma store_echo_is_queried_host_witness :
  exists req,
    [build_request Samples.cfg_bad_domain (u "other.myshopify.com")
       (u "shpat_1") (u "shoe") 5] = [req] /\
    Some (u "shoe") = Some (u "shoe") /\
    req_url req = u "https://" ++ u "other.myshopify.com" ++ u "/api/"
                  ++ u "2024-07" ++ u "/graphql.json".
Proof.
  exact (@store_echo_is_queried_host _ Samples.cfg_bad_domain
           (Samples.answers 200 "" (Some (Samples.body_of [])))
           (Some (u "shoe")) None (Some (u "https://other.myshopify.com/"))
           _ {| store := u "other.myshopify.com"; query := u "shoe";
                count := 0; results := [] |} eq_refl).
Defined.

Lemma config_reveals_only_token_presence_witness :
  _config Samples.cfg = _config Samples.cfg_blank_token /\
  py_getitem (_config Samples.cfg) (u "token_present") = Ok (JBool true).
Proof.
  destruct (config_reveals_only_token_presence
              Samples.cfg Samples.cfg_blank_token) as [H1 H2].
  split.
  - apply H1; [reflexivity | reflexivity | split; discriminate].
  - apply H2. discriminate.
Defined.

Lemma startup_warns_iff_default_search_fails_witness :
  search_shopify_products default_settings
    (Samples.answers 200 "" (Some (Samples.body_of []))) (u "shoe") 5 None
  = ([], Raise (RuntimeError MissingStorefrontToken)) /\
  _startup_check Samples.cfg = [].
Proof.
  split.
  - apply (proj2 (proj2 (@startup_warns_iff_default_search_fails _
             default_settings
             (Samples.answers 200 "" (Some (Samples.body_of [])))
             (u "shoe") 5 None eq_refl))).
    reflexivity.
  - apply (proj1 (proj2 (@startup_warns_iff_default_search_fails _
             Samples.cfg
             (Samples.answers 200 "" (Some (Samples.body_of [])))
             (u "shoe") 5 None eq_refl))).
    eexists. reflexivity.
Defined.

Lemma url_is_passed_through_witness :
  normalize_edge
    (Samples.node_ [(u "onlineStoreUrl", JStr (u "https://shop/p/1"))])
  = Ok {| id := u ""; title := u ""; handle := u "";
          url := Some (u "https://shop/p/1"); price := None;
          image := None; imageAlt := None |} /\
  Some (u "https://shop/p/1") = Some (u "https://shop/p/1").
Proof.
  split; [reflexivity|].
  destruct (url_is_passed_through
              (Samples.node_ [(u "onlineStoreUrl", JStr (u "https://shop/p/1"))])
              (r := {| id := u ""; title := u ""; handle := u "";
                       url := Some (u "https://shop/p/1"); price := None;
                       image := None; imageAlt := None |})
              eq_refl) as (node & Hn & Hu).
  injection Hn as <-. exact Hu.
Defined.

Lemma non_object_levels_raise_witness :
  normalize_edge JNull = Raise AttributeError /\
  normalize_edge (Samples.node_ [(u "variants", JNull)])
    = Raise AttributeError /\
  normalize_edge (Samples.node_ [(u "images", JNull)])
    = Raise AttributeError.
Proof.
  split; [|split].
  - apply (proj1 (non_object_levels_raise JNull)). discriminate.
  - refine (proj1 (proj2 (proj2 (non_object_levels_raise
              (Samples.node_ [(u "variants", JNull)]))))
              _ _ eq_refl eq_refl _).
    discriminate.
  - refine (proj2 (proj2 (proj2 (non_object_levels_raise
              (Samples.node_ [(u "images", JNull)]))))
              _ _ JNull eq_refl eq_refl eq_refl _).
    discriminate.
Defined.
